(** * Progression engine of the gamified learning journal

    A shallow embedding of [src/hooks/useGamification.ts]: the calendar
    helpers, the leveling arithmetic, the streak calculator, the achievement
    and unlock evaluators, the quest engine and the store actions that
    compose them, followed by the properties of the engine. *)

From Stdlib Require Import ZArith Lia Bool List Ascii String QArith Qminmax.
From stdpp Require Import base option strings gmap fin_maps.

Local Open Scope string_scope.
Local Open Scope Z_scope.

(** ** The runtime's [Date] object

    The engine calls the ECMAScript [Date] object through [new Date(s)],
    [new Date()], the local-time getters, [setDate], [setHours(0,0,0,0)] and
    [toISOString].  A date holds a time value (milliseconds since the epoch)
    or is the Invalid Date, whose getters all answer [NaN].

    Conventions of this model: the local time zone is UTC; time values stay
    inside the range ECMAScript allows, so the final clipping of a time value
    is the identity and is left out; numbers are integers, [None] standing
    for [NaN]. *)

Module JS.

Inductive Date : Type :=
  | InvalidDate
  | TimeValue (t : Z).

(** A JavaScript number that is either an integer or [NaN]. *)
Definition number : Type := option Z.

Definition NaN : number := None.

Definition num_add (a b : number) : number :=
  match a, b with
  | Some x, Some y => Some (x + y)
  | _, _ => NaN
  end.

Definition num_sub (a b : number) : number :=
  match a, b with
  | Some x, Some y => Some (x - y)
  | _, _ => NaN
  end.

(** [a === b] on numbers: [NaN] differs from everything, itself included. *)
Definition strict_eq (a b : number) : bool :=
  match a, b with
  | Some x, Some y => x =? y
  | _, _ => false
  end.

Definition msPerDay : Z := 86400000.

Definition Day (t : Z) : Z := t / msPerDay.

Definition TimeWithinDay (t : Z) : Z := t mod msPerDay.

(** Proleptic Gregorian calendar, by eras of 400 years that start on a
    1 March.  [civil_from_days z] is the (year, month index 0..11, day of
    month 1..31) of day number [z], day 0 being 1970-01-01. *)
Definition civil_from_days (z : Z) : Z * Z * Z :=
  let z := z + 719468 in
  let era := z / 146097 in
  let doe := z mod 146097 in
  let yoe := (doe - doe / 1460 + doe / 36524 - doe / 146096) / 365 in
  let doy := doe - (365 * yoe + yoe / 4 - yoe / 100) in
  let mp := (5 * doy + 2) / 153 in
  let d := doy - (153 * mp + 2) / 5 + 1 in
  let m := if mp <? 10 then mp + 2 else mp - 10 in
  let y := yoe + era * 400 + (if m <=? 1 then 1 else 0) in
  (y, m, d).

(** Day number of the given day of the given month (index 0..11); the day
    may lie outside the month, as in [MakeDay]. *)
Definition days_from_civil (y m d : Z) : Z :=
  let y := if m <=? 1 then y - 1 else y in
  let era := y / 400 in
  let yoe := y mod 400 in
  let mp := if m <=? 1 then m + 10 else m - 2 in
  let doy := (153 * mp + 2) / 5 + d - 1 in
  let doe := yoe * 365 + yoe / 4 - yoe / 100 + doy in
  era * 146097 + doe - 719468.

(** [MakeDay(year, month, date)]: the month may overflow into the years. *)
Definition MakeDay (year month date : Z) : Z :=
  days_from_civil (year + month / 12) (month mod 12) 1 + date - 1.

Definition MakeDate (day time : Z) : Z := day * msPerDay + time.

Definition YearFromTime (t : Z) : Z := fst (fst (civil_from_days (Day t))).
Definition MonthFromTime (t : Z) : Z := snd (fst (civil_from_days (Day t))).
Definition DateFromTime (t : Z) : Z := snd (civil_from_days (Day t)).
Definition WeekDay (t : Z) : Z := (Day t + 4) mod 7.

Definition getFullYear (d : Date) : number :=
  match d with TimeValue t => Some (YearFromTime t) | InvalidDate => NaN end.

Definition getMonth (d : Date) : number :=
  match d with TimeValue t => Some (MonthFromTime t) | InvalidDate => NaN end.

Definition getDate (d : Date) : number :=
  match d with TimeValue t => Some (DateFromTime t) | InvalidDate => NaN end.

(** Day of the week, 0 for Sunday. *)
Definition getDay (d : Date) : number :=
  match d with TimeValue t => Some (WeekDay t) | InvalidDate => NaN end.

(** [d.setDate(dt)], as the date it leaves in [d]. *)
Definition setDate (d : Date) (dt : number) : Date :=
  match d, dt with
  | TimeValue t, Some n =>
      TimeValue (MakeDate (MakeDay (YearFromTime t) (MonthFromTime t) n)
                          (TimeWithinDay t))
  | _, _ => InvalidDate
  end.

(** [d.setHours(0, 0, 0, 0)], as the date it leaves in [d]. *)
Definition setHours0 (d : Date) : Date :=
  match d with
  | TimeValue t => TimeValue (MakeDate (Day t) 0)
  | InvalidDate => InvalidDate
  end.

(** *** Date strings *)

Definition digit (n : Z) : ascii := ascii_of_N (48 + Z.to_N (n mod 10)).

(** [n] in decimal on exactly [w] digits. *)
Fixpoint pad (w : nat) (n : Z) : string :=
  match w with
  | O => ""
  | S w' => pad w' (n / 10) ++ String (digit n) ""
  end.

Definition format_year (y : Z) : string :=
  if (0 <=? y) && (y <=? 9999) then pad 4 y
  else if 0 <=? y then "+" ++ pad 6 y
  else "-" ++ pad 6 (- y).

(** [d.toISOString()]: [YYYY-MM-DDTHH:mm:ss.sssZ].  On the Invalid Date the
    runtime throws a [RangeError]; the engine calls it only on the clock and
    on the start of the clock's week, which are never invalid
    (see [getWeekStart_valid]). *)
Definition toISOString (d : Date) : string :=
  match d with
  | InvalidDate => ""
  | TimeValue t =>
      let w := TimeWithinDay t in
      format_year (YearFromTime t) ++ "-" ++ pad 2 (MonthFromTime t + 1) ++ "-"
        ++ pad 2 (DateFromTime t) ++ "T" ++ pad 2 (w / 3600000) ++ ":"
        ++ pad 2 (w / 60000 mod 60) ++ ":" ++ pad 2 (w / 1000 mod 60) ++ "."
        ++ pad 3 (w mod 1000) ++ "Z"
  end.

Definition digit_val (c : ascii) : option Z :=
  let n := Z.of_N (N_of_ascii c) in
  if (48 <=? n) && (n <=? 57) then Some (n - 48) else None.

Fixpoint digits_val (acc : Z) (s : string) : option Z :=
  match s with
  | EmptyString => Some acc
  | String c s' =>
      match digit_val c with
      | Some v => digits_val (10 * acc + v) s'
      | None => None
      end
  end.

(** The decimal number written by the [len] characters of [s] from [pos]. *)
Definition field (pos len : nat) (s : string) : option Z :=
  let f := substring pos len s in
  if Nat.eqb (String.length f) len then digits_val 0 f else None.

Definition sep (pos : nat) (c : string) (s : string) : bool :=
  String.eqb (substring pos 1 s) c.

Definition parse_day (s : string) : option Z :=
  match field 0 4 s, field 5 2 s, field 8 2 s with
  | Some y, Some m, Some d =>
      if sep 4 "-" s && sep 7 "-" s && (1 <=? m) && (m <=? 12) && (1 <=? d)
         && (d <=? days_from_civil y m 1 - days_from_civil y (m - 1) 1)
      then Some (days_from_civil y (m - 1) d)
      else None
  | _, _, _ => None
  end.

Definition parse_time (s : string) : option Z :=
  match field 11 2 s, field 14 2 s, field 17 2 s, field 20 3 s with
  | Some h, Some mi, Some sec, Some ms =>
      if sep 10 "T" s && sep 13 ":" s && sep 16 ":" s && sep 19 "." s
         && sep 23 "Z" s && (h <=? 23) && (mi <=? 59) && (sec <=? 59)
      then Some (h * 3600000 + mi * 60000 + sec * 1000 + ms)
      else None
  | _, _, _, _ => None
  end.

(** [new Date(s)] for the two forms of date string the application writes:
    the date-only form [YYYY-MM-DD] and the form of [toISOString], both read
    as UTC.  Any other string gives the Invalid Date here. *)
Definition Date_parse (s : string) : Date :=
  match String.length s with
  | 10%nat =>
      match parse_day s with
      | Some day => TimeValue (MakeDate day 0)
      | None => InvalidDate
      end
  | 24%nat =>
      match parse_day s, parse_time s with
      | Some day, Some time => TimeValue (MakeDate day time)
      | _, _ => InvalidDate
      end
  | _ => InvalidDate
  end.

(** Truthiness of a nullable string: [null] and the empty string are falsy. *)
Definition truthy_string (s : option string) : bool :=
  match s with
  | Some s' => negb (String.eqb s' "")
  | None => false
  end.

(** [Math.round(a / b)] for integers [a] and [b > 0]: the nearest integer,
    a half being rounded up. *)
Definition Math_round_quot (a b : Z) : Z := (2 * a + b) / (2 * b).

(** [new Date()] when the clock reads [clock] milliseconds. *)
Definition Date_now (clock : Z) : Date := TimeValue clock.

Definition lower_char (c : ascii) : ascii :=
  let n := N_of_ascii c in
  if (65 <=? n)%N && (n <=? 90)%N then ascii_of_N (n + 32) else c.

(** [s.toLowerCase()], on the ASCII letters. *)
Fixpoint toLowerCase (s : string) : string :=
  match s with
  | EmptyString => EmptyString
  | String c s' => String (lower_char c) (toLowerCase s')
  end.

End JS.

Import JS.

(** ** Types *)

Record JournalEntry : Type := {
  entry_id : string;
  date : string;                       (* ISO date string *)
  tags : option (list string);
  focusMinutes : option Z;
  focusLevel : option Z                (* 1-10 *)
}.

Inductive AchievementId : Type :=
  | streak_warrior
  | math_mastery
  | deep_focus
  | consistency_king.

(** The display-only [icon] of an achievement is left out. *)
Record Achievement : Type := {
  ach_id : AchievementId;
  ach_title : string;
  ach_description : string;
  ach_requirement : Z;
  ach_progress : Z;
  ach_unlocked : bool;
  ach_unlockedAt : option string
}.

Inductive UnlockId : Type :=
  | dark_mode
  | themes
  | advanced_stats.

Record Unlock : Type := {
  unl_id : UnlockId;
  unl_title : string;
  unl_description : string;
  unl_requiredLevel : Z;
  unl_unlocked : bool
}.

Inductive QuestType : Type :=
  | entries
  | tags_type
  | focus
  | streak_type.

Record Quest : Type := {
  q_id : string;
  q_title : string;
  q_description : string;
  q_target : Z;
  q_progress : Z;
  q_rewardXP : Z;
  q_completed : bool;
  q_claimed : bool;
  q_type : QuestType;
  q_typeValue : option string;         (* e.g., tag name for "tags" type *)
  q_resetWeekly : option bool;
  q_weekStarted : option string        (* ISO date of week quest started *)
}.

(** [Record<AchievementId, Achievement>]: one achievement under each id. *)
Record Achievements : Type := {
  at_streak_warrior : Achievement;
  at_math_mastery : Achievement;
  at_deep_focus : Achievement;
  at_consistency_king : Achievement
}.

Definition achievement (id : AchievementId) (a : Achievements) : Achievement :=
  match id with
  | streak_warrior => at_streak_warrior a
  | math_mastery => at_math_mastery a
  | deep_focus => at_deep_focus a
  | consistency_king => at_consistency_king a
  end.

(** [Record<UnlockId, Unlock>]. *)
Record Unlocks : Type := {
  at_dark_mode : Unlock;
  at_themes : Unlock;
  at_advanced_stats : Unlock
}.

(** The data fields of the store's state. *)
Record GamificationState : Type := {
  (* Core stats *)
  xp : Z;
  totalEntries : Z;
  totalFocusMinutes : Z;
  mathTaggedEntries : Z;
  (* Streak tracking *)
  streak : Z;
  lastEntryDate : option string;
  longestStreak : Z;
  (* Achievement tracking *)
  achievements : Achievements;
  (* Unlock tracking *)
  unlocks : Unlocks;
  (* Quest tracking *)
  quests : gmap string Quest;
  (* Weekly tracking for quests *)
  weeklyEntriesCount : Z;
  weeklyHighFocusDays : Z;
  weekStartDate : option string
}.

(** ** Constants *)

Definition DEFAULT_ACHIEVEMENTS : Achievements := {|
  at_streak_warrior := {|
    ach_id := streak_warrior;
    ach_title := "7-Day Streak Warrior";
    ach_description := "Maintain a 7-day journaling streak";
    ach_requirement := 7;
    ach_progress := 0;
    ach_unlocked := false;
    ach_unlockedAt := None |};
  at_math_mastery := {|
    ach_id := math_mastery;
    ach_title := "Math Mastery";
    ach_description := "Create 10 math-tagged entries";
    ach_requirement := 10;
    ach_progress := 0;
    ach_unlocked := false;
    ach_unlockedAt := None |};
  at_deep_focus := {|
    ach_id := deep_focus;
    ach_title := "Deep Focus";
    ach_description := "Accumulate 4 hours of total focus time";
    ach_requirement := 240;            (* 4 hours in minutes *)
    ach_progress := 0;
    ach_unlocked := false;
    ach_unlockedAt := None |};
  at_consistency_king := {|
    ach_id := consistency_king;
    ach_title := "Consistency King";
    ach_description := "Create 20 journal entries";
    ach_requirement := 20;
    ach_progress := 0;
    ach_unlocked := false;
    ach_unlockedAt := None |}
|}.

Definition DEFAULT_UNLOCKS : Unlocks := {|
  at_dark_mode := {|
    unl_id := dark_mode;
    unl_title := "Dark Mode";
    unl_description := "Unlock dark mode theme";
    unl_requiredLevel := 3;
    unl_unlocked := false |};
  at_themes := {|
    unl_id := themes;
    unl_title := "Themes";
    unl_description := "Unlock custom color themes";
    unl_requiredLevel := 5;
    unl_unlocked := false |};
  at_advanced_stats := {|
    unl_id := advanced_stats;
    unl_title := "Advanced Stats";
    unl_description := "Unlock advanced statistics and analytics";
    unl_requiredLevel := 7;
    unl_unlocked := false |}
|}.

Definition weekly_entries_3 : Quest := {|
  q_id := "weekly-entries-3";
  q_title := "Weekly Writer";
  q_description := "Write 3 entries this week";
  q_target := 3;
  q_progress := 0;
  q_rewardXP := 50;
  q_completed := false;
  q_claimed := false;
  q_type := entries;
  q_typeValue := None;
  q_resetWeekly := Some true;
  q_weekStarted := None |}.

Definition math_tags_5 : Quest := {|
  q_id := "math-tags-5";
  q_title := "Math Explorer";
  q_description := "Tag 5 entries with Math";
  q_target := 5;
  q_progress := 0;
  q_rewardXP := 75;
  q_completed := false;
  q_claimed := false;
  q_type := tags_type;
  q_typeValue := Some "math";
  q_resetWeekly := Some false;
  q_weekStarted := None |}.

(** The description has the source's one-character sign for "at least"
    spelled [>=]. *)
Definition high_focus_2_days : Quest := {|
  q_id := "high-focus-2-days";
  q_title := "Focus Master";
  q_description := "Have 2 days with focus level >=7";
  q_target := 2;
  q_progress := 0;
  q_rewardXP := 60;
  q_completed := false;
  q_claimed := false;
  q_type := focus;
  q_typeValue := None;
  q_resetWeekly := Some true;
  q_weekStarted := None |}.

Definition DEFAULT_QUESTS : gmap string Quest :=
  <["weekly-entries-3" := weekly_entries_3]>
    (<["math-tags-5" := math_tags_5]>
      (<["high-focus-2-days" := high_focus_2_days]> ∅)).

Definition INITIAL_STATE : GamificationState := {|
  xp := 0;
  totalEntries := 0;
  totalFocusMinutes := 0;
  mathTaggedEntries := 0;
  streak := 0;
  lastEntryDate := None;
  longestStreak := 0;
  achievements := DEFAULT_ACHIEVEMENTS;
  unlocks := DEFAULT_UNLOCKS;
  quests := DEFAULT_QUESTS;
  weeklyEntriesCount := 0;
  weeklyHighFocusDays := 0;
  weekStartDate := None
|}.

(** ** Helper functions *)

(** Calculate level from XP: level N requires N * 100 XP total. *)
Definition calculateLevel (xp : Z) : Z :=
  if xp <? 100 then 0 else xp / 100.

(** Get XP required for a specific level. *)
Definition getXPForLevel (level : Z) : Z := level * 100.

Record XPProgress : Type := {
  current : Z;
  required : Z;
  percentage : Q
}.

(** Get XP progress within current level.  The percentage is the exact
    quotient, where the source has its floating-point value. *)
Definition getXPProgress (xp : Z) : XPProgress :=
  let level := calculateLevel xp in
  let currentLevelXP := getXPForLevel level in
  let nextLevelXP := getXPForLevel (level + 1) in
  let xpIntoLevel := xp - currentLevelXP in
  let xpNeeded := nextLevelXP - currentLevelXP in
  {| current := xpIntoLevel;
     required := xpNeeded;
     percentage :=
       Qmin (Qmult (Qdiv (inject_Z xpIntoLevel) (inject_Z xpNeeded))
                   (inject_Z 100))
            (inject_Z 100) |}.

(** Check if two dates are the same day. *)
Definition isSameDay (date1 date2 : Date) : bool :=
  strict_eq (getFullYear date1) (getFullYear date2)
  && strict_eq (getMonth date1) (getMonth date2)
  && strict_eq (getDate date1) (getDate date2).

(** Check if date1 is exactly one day before date2. *)
Definition isYesterday (date1 date2 : Date) : bool :=
  let yesterday := date2 in
  let yesterday := setDate yesterday (num_sub (getDate yesterday) (Some 1)) in
  isSameDay date1 yesterday.

(** Get the start of the week (Monday) for a given date. *)
Definition getWeekStart (date : Date) : Date :=
  let d := date in
  let day := getDay d in
  let diff :=
    num_add (num_sub (getDate d) day)
            (Some (if strict_eq day (Some 0) then -6 else 1)) in
  let d := setDate d diff in
  let d := setHours0 d in
  d.

(** Check if date is in the same week as reference. *)
Definition isSameWeek (date reference : Date) : bool :=
  let weekStart1 := getWeekStart date in
  let weekStart2 := getWeekStart reference in
  isSameDay weekStart1 weekStart2.

Record StreakResult : Type := {
  newStreak : Z;
  isNewDay : bool
}.

(** Calculate streak based on last entry date. *)
Definition calculateStreak (lastEntryDate : option string) (currentStreak : Z)
    (entryDate : Date) : StreakResult :=
  if negb (truthy_string lastEntryDate) then
    {| newStreak := 1; isNewDay := true |}
  else
    let lastDate := Date_parse (default "" lastEntryDate) in
    let today := entryDate in
    if isSameDay lastDate today then
      {| newStreak := currentStreak; isNewDay := false |}
    else if isYesterday lastDate today then
      {| newStreak := currentStreak + 1; isNewDay := true |}
    else
      {| newStreak := 1; isNewDay := true |}.

(** The aggregate counters the achievements are evaluated against. *)
Record Counters : Type := {
  c_streak : Z;
  c_mathTaggedEntries : Z;
  c_totalFocusMinutes : Z;
  c_totalEntries : Z
}.

(** Update achievements based on current state.  [clock] is the reading of
    [new Date()]. *)
Definition updateAchievements (clock : Date) (achievements : Achievements)
    (state : Counters) : Achievements :=
  let now := toISOString clock in
  let updated := achievements in
  let updated :=
    if negb (ach_unlocked (at_streak_warrior updated)) then
      {| at_streak_warrior := {|
           ach_id := ach_id (at_streak_warrior updated);
           ach_title := ach_title (at_streak_warrior updated);
           ach_description := ach_description (at_streak_warrior updated);
           ach_requirement := ach_requirement (at_streak_warrior updated);
           ach_progress := c_streak state;
           ach_unlocked := c_streak state >=? 7;
           ach_unlockedAt := if c_streak state >=? 7 then Some now else None |};
         at_math_mastery := at_math_mastery updated;
         at_deep_focus := at_deep_focus updated;
         at_consistency_king := at_consistency_king updated |}
    else updated in
  let updated :=
    if negb (ach_unlocked (at_math_mastery updated)) then
      {| at_streak_warrior := at_streak_warrior updated;
         at_math_mastery := {|
           ach_id := ach_id (at_math_mastery updated);
           ach_title := ach_title (at_math_mastery updated);
           ach_description := ach_description (at_math_mastery updated);
           ach_requirement := ach_requirement (at_math_mastery updated);
           ach_progress := c_mathTaggedEntries state;
           ach_unlocked := c_mathTaggedEntries state >=? 10;
           ach_unlockedAt :=
             if c_mathTaggedEntries state >=? 10 then Some now else None |};
         at_deep_focus := at_deep_focus updated;
         at_consistency_king := at_consistency_king updated |}
    else updated in
  let updated :=
    if negb (ach_unlocked (at_deep_focus updated)) then
      {| at_streak_warrior := at_streak_warrior updated;
         at_math_mastery := at_math_mastery updated;
         at_deep_focus := {|
           ach_id := ach_id (at_deep_focus updated);
           ach_title := ach_title (at_deep_focus updated);
           ach_description := ach_description (at_deep_focus updated);
           ach_requirement := ach_requirement (at_deep_focus updated);
           ach_progress := c_totalFocusMinutes state;
           ach_unlocked := c_totalFocusMinutes state >=? 240;
           ach_unlockedAt :=
             if c_totalFocusMinutes state >=? 240 then Some now else None |};
         at_consistency_king := at_consistency_king updated |}
    else updated in
  let updated :=
    if negb (ach_unlocked (at_consistency_king updated)) then
      {| at_streak_warrior := at_streak_warrior updated;
         at_math_mastery := at_math_mastery updated;
         at_deep_focus := at_deep_focus updated;
         at_consistency_king := {|
           ach_id := ach_id (at_consistency_king updated);
           ach_title := ach_title (at_consistency_king updated);
           ach_description := ach_description (at_consistency_king updated);
           ach_requirement := ach_requirement (at_consistency_king updated);
           ach_progress := c_totalEntries state;
           ach_unlocked := c_totalEntries state >=? 20;
           ach_unlockedAt :=
             if c_totalEntries state >=? 20 then Some now else None |} |}
    else updated in
  updated.

Definition unlock_it (u : Unlock) : Unlock :=
  {| unl_id := unl_id u;
     unl_title := unl_title u;
     unl_description := unl_description u;
     unl_requiredLevel := unl_requiredLevel u;
     unl_unlocked := true |}.

(** Update unlocks based on current level. *)
Definition updateUnlocks (unlocks : Unlocks) (level : Z) : Unlocks :=
  let updated := unlocks in
  let updated :=
    if negb (unl_unlocked (at_dark_mode updated)) && (level >=? 3) then
      {| at_dark_mode := unlock_it (at_dark_mode updated);
         at_themes := at_themes updated;
         at_advanced_stats := at_advanced_stats updated |}
    else updated in
  let updated :=
    if negb (unl_unlocked (at_themes updated)) && (level >=? 5) then
      {| at_dark_mode := at_dark_mode updated;
         at_themes := unlock_it (at_themes updated);
         at_advanced_stats := at_advanced_stats updated |}
    else updated in
  let updated :=
    if negb (unl_unlocked (at_advanced_stats updated)) && (level >=? 7) then
      {| at_dark_mode := at_dark_mode updated;
         at_themes := at_themes updated;
         at_advanced_stats := unlock_it (at_advanced_stats updated) |}
    else updated in
  updated.

(** ** The store

    The store holds the current state.  [set] replaces it by the state merged
    with the partial state it is given and notifies the store's subscribers
    (the persistence layer among them) before it returns: every [set] is a
    commit that can be observed.  [commits] is the sequence of the states
    committed so far, oldest first. *)

Record Store : Type := {
  st_state : GamificationState;
  st_commits : list GamificationState
}.

Definition Action (A : Type) : Type := Store -> A * Store.

Definition ret {A : Type} (a : A) : Action A := fun st => (a, st).

Definition bind {A B : Type} (m : Action A) (k : A -> Action B) : Action B :=
  fun st => let (a, st') := m st in k a st'.

Notation "x <- m ;; k" := (bind m (fun x => k))
  (at level 100, m at next level, right associativity).
Notation "m ;;; k" := (bind m (fun _ => k))
  (at level 100, right associativity).

Definition get : Action GamificationState := fun st => (st_state st, st).

(** [set(fn)], where [fn] gives the merged state. *)
Definition set (fn : GamificationState -> GamificationState) : Action unit :=
  fun st =>
    let s' := fn (st_state st) in
    (tt, {| st_state := s'; st_commits := st_commits st ++ [s'] |}).

(** The store after an action. *)
Definition exec {A : Type} (m : Action A) (st : Store) : Store := snd (m st).

(** A store holding [s], with nothing committed yet. *)
Definition store_of (s : GamificationState) : Store :=
  {| st_state := s; st_commits := [] |}.

(** The state an action leaves, started on state [s]. *)
Definition after {A : Type} (m : Action A) (s : GamificationState)
    : GamificationState :=
  st_state (exec m (store_of s)).

(** ** Store actions

    Each action is given with the function it passes to [set].  [clock] is
    what the wall clock reads while the action runs. *)

Definition addXP_fn (amount : Z) (state : GamificationState)
    : GamificationState :=
  let newXP := xp state + amount in
  let newLevel := calculateLevel newXP in
  let updatedUnlocks := updateUnlocks (unlocks state) newLevel in
  {| xp := newXP;
     totalEntries := totalEntries state;
     totalFocusMinutes := totalFocusMinutes state;
     mathTaggedEntries := mathTaggedEntries state;
     streak := streak state;
     lastEntryDate := lastEntryDate state;
     longestStreak := longestStreak state;
     achievements := achievements state;
     unlocks := updatedUnlocks;
     quests := quests state;
     weeklyEntriesCount := weeklyEntriesCount state;
     weeklyHighFocusDays := weeklyHighFocusDays state;
     weekStartDate := weekStartDate state |}.

Definition _addXP (amount : Z) : Action unit :=
  if amount <=? 0 then ret tt
  else set (addXP_fn amount).

Definition updateStreak_fn (dateISOString : string) (state : GamificationState)
    : GamificationState :=
  let entryDate := Date_parse dateISOString in
  let newStreak :=
    newStreak (calculateStreak (lastEntryDate state) (streak state) entryDate) in
  let newLongestStreak := Z.max (longestStreak state) newStreak in
  {| xp := xp state;
     totalEntries := totalEntries state;
     totalFocusMinutes := totalFocusMinutes state;
     mathTaggedEntries := mathTaggedEntries state;
     streak := newStreak;
     lastEntryDate := Some dateISOString;
     longestStreak := newLongestStreak;
     achievements := achievements state;
     unlocks := unlocks state;
     quests := quests state;
     weeklyEntriesCount := weeklyEntriesCount state;
     weeklyHighFocusDays := weeklyHighFocusDays state;
     weekStartDate := weekStartDate state |}.

Definition _updateStreak (dateISOString : string) : Action unit :=
  set (updateStreak_fn dateISOString).

(** The merge of [{ streak: 0 }] into the state. *)
Definition resetStreak_fn (state : GamificationState) : GamificationState :=
  {| xp := xp state;
     totalEntries := totalEntries state;
     totalFocusMinutes := totalFocusMinutes state;
     mathTaggedEntries := mathTaggedEntries state;
     streak := 0;
     lastEntryDate := lastEntryDate state;
     longestStreak := longestStreak state;
     achievements := achievements state;
     unlocks := unlocks state;
     quests := quests state;
     weeklyEntriesCount := weeklyEntriesCount state;
     weeklyHighFocusDays := weeklyHighFocusDays state;
     weekStartDate := weekStartDate state |}.

Definition _resetStreak : Action unit := set resetStreak_fn.

(** A truthy optional flag: present and [true]. *)
Definition truthy_flag (b : option bool) : bool := default false b.

Definition resetWeeklyQuest (weekStart : string) (quest : Quest) : Quest :=
  if truthy_flag (q_resetWeekly quest) then
    {| q_id := q_id quest;
       q_title := q_title quest;
       q_description := q_description quest;
       q_target := q_target quest;
       q_progress := 0;
       q_rewardXP := q_rewardXP quest;
       q_completed := false;
       q_claimed := false;
       q_type := q_type quest;
       q_typeValue := q_typeValue quest;
       q_resetWeekly := q_resetWeekly quest;
       q_weekStarted := Some weekStart |}
  else quest.

Definition resetWeeklyQuests_fn (clock : Z) (state : GamificationState)
    : GamificationState :=
  let now := Date_now clock in
  let weekStart := toISOString (getWeekStart now) in
  (* Check if we need to reset weekly quests *)
  if truthy_string (weekStartDate state)
     && negb (isSameWeek (Date_parse (default "" (weekStartDate state))) now)
  then
    (* Reset weekly quests *)
    let updatedQuests := resetWeeklyQuest weekStart <$> quests state in
    {| xp := xp state;
       totalEntries := totalEntries state;
       totalFocusMinutes := totalFocusMinutes state;
       mathTaggedEntries := mathTaggedEntries state;
       streak := streak state;
       lastEntryDate := lastEntryDate state;
       longestStreak := longestStreak state;
       achievements := achievements state;
       unlocks := unlocks state;
       quests := updatedQuests;
       weeklyEntriesCount := 0;
       weeklyHighFocusDays := 0;
       weekStartDate := Some weekStart |}
  else
    {| xp := xp state;
       totalEntries := totalEntries state;
       totalFocusMinutes := totalFocusMinutes state;
       mathTaggedEntries := mathTaggedEntries state;
       streak := streak state;
       lastEntryDate := lastEntryDate state;
       longestStreak := longestStreak state;
       achievements := achievements state;
       unlocks := unlocks state;
       quests := quests state;
       weeklyEntriesCount := weeklyEntriesCount state;
       weeklyHighFocusDays := weeklyHighFocusDays state;
       weekStartDate := Some weekStart |}.

Definition _resetWeeklyQuests (clock : Z) : Action unit :=
  set (resetWeeklyQuests_fn clock).

(** [entry.focusLevel ?? (entry.focusMinutes ? Math.round(entry.focusMinutes / 6) : 5)] *)
Definition entryFocusLevel (entry : JournalEntry) : Z :=
  match focusLevel entry with
  | Some level => level
  | None =>
      match focusMinutes entry with
      | Some m => if m =? 0 then 5 else Math_round_quot m 6
      | None => 5
      end
  end.

(** [entry.tags?.some((tag) => tag.toLowerCase() === value.toLowerCase())],
    read as a condition. *)
Definition hasTag (entry : JournalEntry) (value : string) : bool :=
  match tags entry with
  | Some l =>
      existsb (fun tag => String.eqb (toLowerCase tag) (toLowerCase value)) l
  | None => false
  end.

(** The body of the loop over the quests in [_updateQuests]. *)
Definition updateQuest (state : GamificationState) (entry : JournalEntry)
    (entryDate : Date) (isNewDay : bool)
    (newWeeklyEntriesCount newWeeklyHighFocusDays : Z) (quest : Quest) : Quest :=
  if q_completed quest then quest (* Skip completed quests *)
  else
    let newProgress := q_progress quest in
    let newProgress :=
      match q_type quest with
      | entries =>
          if truthy_flag (q_resetWeekly quest) then newWeeklyEntriesCount
          else totalEntries state + (if isNewDay then 1 else 0)
      | tags_type =>
          if truthy_string (q_typeValue quest) then
            if hasTag entry (default "" (q_typeValue quest)) && isNewDay
            then q_progress quest + 1
            else newProgress
          else newProgress
      | focus =>
          if truthy_flag (q_resetWeekly quest) then newWeeklyHighFocusDays
          else
            let focusLevel := entryFocusLevel entry in
            if (focusLevel >=? 7) && isNewDay then q_progress quest + 1
            else newProgress
      | streak_type =>
          newStreak
            (calculateStreak (lastEntryDate state) (streak state) entryDate)
      end in
    let isNowCompleted := newProgress >=? q_target quest in
    {| q_id := q_id quest;
       q_title := q_title quest;
       q_description := q_description quest;
       q_target := q_target quest;
       q_progress := Z.min newProgress (q_target quest);
       q_rewardXP := q_rewardXP quest;
       q_completed := isNowCompleted;
       q_claimed := q_claimed quest;
       q_type := q_type quest;
       q_typeValue := q_typeValue quest;
       q_resetWeekly := q_resetWeekly quest;
       q_weekStarted := q_weekStarted quest |}.

Definition updateQuests_fn (clock : Z) (entry : JournalEntry)
    (state : GamificationState) : GamificationState :=
  let now := Date_now clock in
  let entryDate := Date_parse (date entry) in
  let newWeeklyEntriesCount := weeklyEntriesCount state in
  let newWeeklyHighFocusDays := weeklyHighFocusDays state in
  (* Check if this is a new entry for the day (not same day as last entry) *)
  let isNewDay :=
    negb (truthy_string (lastEntryDate state))
    || negb (isSameDay (Date_parse (default "" (lastEntryDate state))) entryDate) in
  (* Check if entry is in current week *)
  let isCurrentWeek := isSameWeek entryDate now in
  let newWeeklyEntriesCount :=
    if isNewDay && isCurrentWeek then newWeeklyEntriesCount + 1
    else newWeeklyEntriesCount in
  let newWeeklyHighFocusDays :=
    if isNewDay && isCurrentWeek then
      (* Check for high focus day *)
      let focusLevel := entryFocusLevel entry in
      if focusLevel >=? 7 then newWeeklyHighFocusDays + 1
      else newWeeklyHighFocusDays
    else newWeeklyHighFocusDays in
  (* Update each quest *)
  let updatedQuests :=
    updateQuest state entry entryDate isNewDay newWeeklyEntriesCount
      newWeeklyHighFocusDays <$> quests state in
  {| xp := xp state;
     totalEntries := totalEntries state;
     totalFocusMinutes := totalFocusMinutes state;
     mathTaggedEntries := mathTaggedEntries state;
     streak := streak state;
     lastEntryDate := lastEntryDate state;
     longestStreak := longestStreak state;
     achievements := achievements state;
     unlocks := unlocks state;
     quests := updatedQuests;
     weeklyEntriesCount := newWeeklyEntriesCount;
     weeklyHighFocusDays := newWeeklyHighFocusDays;
     weekStartDate := weekStartDate state |}.

Definition _updateQuests (clock : Z) (entry : JournalEntry) : Action unit :=
  set (updateQuests_fn clock entry).

Definition claim_it (quest : Quest) : Quest :=
  {| q_id := q_id quest;
     q_title := q_title quest;
     q_description := q_description quest;
     q_target := q_target quest;
     q_progress := q_progress quest;
     q_rewardXP := q_rewardXP quest;
     q_completed := q_completed quest;
     q_claimed := true;
     q_type := q_type quest;
     q_typeValue := q_typeValue quest;
     q_resetWeekly := q_resetWeekly quest;
     q_weekStarted := q_weekStarted quest |}.

(** [quests: { ...s.quests, [questId]: { ...s.quests[questId], claimed: true } }];
    the action runs it only when [s.quests[questId]] is there. *)
Definition claimQuest_fn (questId : string) (s : GamificationState)
    : GamificationState :=
  {| xp := xp s;
     totalEntries := totalEntries s;
     totalFocusMinutes := totalFocusMinutes s;
     mathTaggedEntries := mathTaggedEntries s;
     streak := streak s;
     lastEntryDate := lastEntryDate s;
     longestStreak := longestStreak s;
     achievements := achievements s;
     unlocks := unlocks s;
     quests := alter claim_it questId (quests s);
     weeklyEntriesCount := weeklyEntriesCount s;
     weeklyHighFocusDays := weeklyHighFocusDays s;
     weekStartDate := weekStartDate s |}.

Definition _claimQuest (questId : string) : Action unit :=
  state <- get ;;
  match quests state !! questId with
  | None => ret tt
  | Some quest =>
      if negb (q_completed quest) || q_claimed quest then ret tt
      else
        set (claimQuest_fn questId) ;;;
        (* Award XP *)
        _addXP (q_rewardXP quest)
  end.

Definition registerEntry_fn (clock : Z) (entry : JournalEntry)
    (s : GamificationState) : GamificationState :=
  let entryDate := Date_parse (date entry) in
  let result := calculateStreak (lastEntryDate s) (streak s) entryDate in
  let newStreak := newStreak result in
  let isNewDay := isNewDay result in
  let newTotalEntries :=
    if isNewDay then totalEntries s + 1 else totalEntries s in
  let hasMathTag := hasTag entry "math" in
  let newMathTaggedEntries :=
    if hasMathTag && isNewDay then mathTaggedEntries s + 1
    else mathTaggedEntries s in
  let newTotalFocusMinutes :=
    totalFocusMinutes s + default 0 (focusMinutes entry) in
  let xpReward := 0 in
  let xpReward :=
    if isNewDay then
      let xpReward := xpReward + 10 in
      if newStreak >? streak s then xpReward + newStreak * 2 else xpReward
    else xpReward in
  let xpReward :=
    match focusMinutes entry with
    | Some m => if m =? 0 then xpReward else xpReward + m / 5
    | None => xpReward
    end in
  let newXP := xp s + xpReward in
  let newLevel := calculateLevel newXP in
  let newLongestStreak := Z.max (longestStreak s) newStreak in
  let updatedAchievements :=
    updateAchievements (Date_now clock) (achievements s)
      {| c_streak := newStreak;
         c_mathTaggedEntries := newMathTaggedEntries;
         c_totalFocusMinutes := newTotalFocusMinutes;
         c_totalEntries := newTotalEntries |} in
  let updatedUnlocks := updateUnlocks (unlocks s) newLevel in
  {| xp := newXP;
     totalEntries := newTotalEntries;
     totalFocusMinutes := newTotalFocusMinutes;
     mathTaggedEntries := newMathTaggedEntries;
     streak := newStreak;
     lastEntryDate := Some (date entry);
     longestStreak := newLongestStreak;
     achievements := updatedAchievements;
     unlocks := updatedUnlocks;
     quests := quests s;
     weeklyEntriesCount := weeklyEntriesCount s;
     weeklyHighFocusDays := weeklyHighFocusDays s;
     weekStartDate := weekStartDate s |}.

Definition _registerEntry (clock : Z) (entry : JournalEntry) : Action unit :=
  state <- get ;;
  (* First, check/reset weekly quests *)
  _resetWeeklyQuests clock ;;;
  set (registerEntry_fn clock entry) ;;;
  (* Update quests after main state update *)
  _ <- get ;;
  _updateQuests clock entry.

Definition _resetState : Action unit := set (fun _ => INITIAL_STATE).

(** ** The hook *)

(** Check streak validity on mount (reset if broken). *)
Definition mountStreakCheck (clock : Z) : Action unit :=
  state <- get ;;
  if truthy_string (lastEntryDate state) && (streak state >? 0) then
    let lastDate := Date_parse (default "" (lastEntryDate state)) in
    let today := Date_now clock in
    let yesterday := today in
    let yesterday := setDate yesterday (num_sub (getDate yesterday) (Some 1)) in
    if negb (isSameDay lastDate today) && negb (isSameDay lastDate yesterday)
    then set resetStreak_fn
    else ret tt
  else ret tt.

(** The two effects the hook runs on mount. *)
Definition mount (clock : Z) : Action unit :=
  mountStreakCheck clock ;;;
  _resetWeeklyQuests clock.

Definition addXP (amount : Z) : Action unit := _addXP amount.
Definition registerEntry (clock : Z) (entry : JournalEntry) : Action unit :=
  _registerEntry clock entry.
Definition claimQuest (questId : string) : Action unit := _claimQuest questId.
Definition resetStreak : Action unit := _resetStreak.
Definition resetWeeklyQuests (clock : Z) : Action unit :=
  _resetWeeklyQuests clock.
Definition resetState : Action unit := _resetState.
Definition updateStreakOnEntry (dateISOString : string) : Action unit :=
  _updateStreak dateISOString.
Definition updateQuestsOnEntry (clock : Z) (entry : JournalEntry) : Action unit :=
  _updateQuests clock entry.

(** The calls the host can make on the engine, each with the clock reading
    and the arguments it is made with. *)
Inductive Mutator : Type :=
  | AddXP (amount : Z)
  | RegisterEntry (clock : Z) (entry : JournalEntry)
  | ClaimQuest (questId : string)
  | ResetStreak
  | ResetWeeklyQuests (clock : Z)
  | ResetState
  | UpdateStreakOnEntry (dateISOString : string)
  | UpdateQuestsOnEntry (clock : Z) (entry : JournalEntry)
  | Mount (clock : Z).

Definition perform (m : Mutator) : Action unit :=
  match m with
  | AddXP amount => addXP amount
  | RegisterEntry clock entry => registerEntry clock entry
  | ClaimQuest questId => claimQuest questId
  | ResetStreak => resetStreak
  | ResetWeeklyQuests clock => resetWeeklyQuests clock
  | ResetState => resetState
  | UpdateStreakOnEntry d => updateStreakOnEntry d
  | UpdateQuestsOnEntry clock entry => updateQuestsOnEntry clock entry
  | Mount clock => mount clock
  end.

(** The state after a sequence of calls, made one after the other. *)
Definition run (ms : list Mutator) (s : GamificationState) : GamificationState :=
  fold_left (fun s m => after (perform m) s) ms s.

(** The states the engine can be in: the initial state and every state a call
    leads to from one of them. *)
Inductive reachable : GamificationState -> Prop :=
  | reachable_initial : reachable INITIAL_STATE
  | reachable_step (s : GamificationState) (m : Mutator) :
      reachable s -> reachable (after (perform m) s).

Definition is_ResetState (m : Mutator) : bool :=
  match m with ResetState => true | _ => false end.

(** ** Notions the properties are stated with *)

(** The calendar day of a date: its day number, day 0 being 1970-01-01.
    The Invalid Date has none. *)
Definition calendar_day (d : Date) : option Z :=
  match d with
  | TimeValue t => Some (Day t)
  | InvalidDate => None
  end.

(** Both dates are valid and fall on the same calendar day. *)
Definition same_calendar_day (d1 d2 : Date) : Prop :=
  exists n : Z, calendar_day d1 = Some n /\ calendar_day d2 = Some n.

(** Both dates are valid and [d2] falls on the calendar day after [d1]'s. *)
Definition next_calendar_day (d1 d2 : Date) : Prop :=
  exists n : Z, calendar_day d1 = Some n /\ calendar_day d2 = Some (n + 1).

(** The day number of the Monday that starts the week of day [n]
    (day 0 was a Thursday). *)
Definition monday_of (n : Z) : Z := n - (n + 3) mod 7.

(** Both dates are valid and fall in the same Monday-to-Sunday week. *)
Definition same_iso_week (d1 d2 : Date) : Prop :=
  exists n1 n2 : Z,
    calendar_day d1 = Some n1 /\ calendar_day d2 = Some n2
    /\ monday_of n1 = monday_of n2.

(** The state [s] with [qs] for its quests. *)
Definition with_quests (qs : gmap string Quest) (s : GamificationState)
    : GamificationState :=
  {| xp := xp s;
     totalEntries := totalEntries s;
     totalFocusMinutes := totalFocusMinutes s;
     mathTaggedEntries := mathTaggedEntries s;
     streak := streak s;
     lastEntryDate := lastEntryDate s;
     longestStreak := longestStreak s;
     achievements := achievements s;
     unlocks := unlocks s;
     quests := qs;
     weeklyEntriesCount := weeklyEntriesCount s;
     weeklyHighFocusDays := weeklyHighFocusDays s;
     weekStartDate := weekStartDate s |}.

(** The quest [q] is the one under [questId], it is completed and its reward
    has not been claimed. *)
Definition claimable (questId : string) (s : GamificationState) (q : Quest)
    : Prop :=
  quests s !! questId = Some q /\ q_completed q = true /\ q_claimed q = false.

(** The store once [s] has been committed to it. *)
Definition commit (s : GamificationState) (st : Store) : Store :=
  {| st_state := s; st_commits := st_commits st ++ [s] |}.

(** Steps 1 to 7 of [registerEntry] as one transition of the state. *)
Definition steps_1_to_7 (clock : Z) (entry : JournalEntry)
    (s : GamificationState) : GamificationState :=
  registerEntry_fn clock entry (resetWeeklyQuests_fn clock s).

(** [registerEntry] as the specification words it: one read of the prior
    state, one commit for steps 1 to 7, then the quest update as a second
    transaction. *)
Definition registerEntry_atomic (clock : Z) (entry : JournalEntry)
    : Action unit :=
  set (steps_1_to_7 clock entry) ;;;
  _updateQuests clock entry.

(** The streak is not negative and the longest streak is at least it. *)
Definition streak_inv (s : GamificationState) : Prop :=
  0 <= streak s <= longestStreak s.

(** What the data model asks of a quest. *)
Definition quest_ok (q : Quest) : Prop :=
  0 <= q_progress q <= q_target q
  /\ (q_completed q = true <-> q_target q <= q_progress q)
  /\ (q_claimed q = true -> q_completed q = true).

(** The invariant that carries [quest_ok]: the counters the quest update reads
    are not negative, and every quest has a positive target. *)
Definition quests_inv (s : GamificationState) : Prop :=
  0 <= streak s /\ 0 <= totalEntries s
  /\ 0 <= weeklyEntriesCount s /\ 0 <= weeklyHighFocusDays s
  /\ forall (questId : string) (q : Quest),
       quests s !! questId = Some q -> 0 < q_target q /\ quest_ok q.

(** No call of the sequence is [resetState]. *)
Definition no_reset (ms : list Mutator) : Prop :=
  Forall (fun m => is_ResetState m = false) ms.

(** ** Sample data *)

(** The initial state in which the quest [math-tags-5] has been completed. *)
Definition math_tags_5_done : Quest :=
  {| q_id := "math-tags-5"; q_title := "Math Explorer";
     q_description := "Tag 5 entries with Math"; q_target := 5;
     q_progress := 5; q_rewardXP := 75; q_completed := true;
     q_claimed := false; q_type := tags_type;
     q_typeValue := Some "math"; q_resetWeekly := Some false;
     q_weekStarted := None |}.

Definition claim_example_state : GamificationState :=
  with_quests (<["math-tags-5" := math_tags_5_done]> DEFAULT_QUESTS)
    INITIAL_STATE.

(** Wednesday 3 January 2024, 10:00 UTC, as a clock reading. *)
Definition clock_2024_01_03 : Z := 1704276000000.

(** An entry written at that time, as the journal registers it. *)
Definition entry_2024_01_03 : JournalEntry :=
  {| entry_id := "test-1";
     date := "2024-01-03T10:00:00.000Z";
     tags := Some ["tech"];
     focusMinutes := Some 30;
     focusLevel := None |}.

(** An entry of four hours of focus on the next day. *)
Definition entry_2024_01_04 : JournalEntry :=
  {| entry_id := "test-2";
     date := "2024-01-04T09:00:00.000Z";
     tags := Some ["math"];
     focusMinutes := Some 240;
     focusLevel := Some 8 |}.

Definition clock_2024_01_04 : Z := 1704358800000.

(** The quest [weekly-entries-3] after one counted entry. *)
Definition weekly_entries_3_one : Quest :=
  {| q_id := "weekly-entries-3"; q_title := "Weekly Writer";
     q_description := "Write 3 entries this week"; q_target := 3;
     q_progress := 1; q_rewardXP := 50; q_completed := false;
     q_claimed := false; q_type := entries; q_typeValue := None;
     q_resetWeekly := Some true; q_weekStarted := None |}.

(** ** The hook's checks *)

Definition unlock (id : UnlockId) (u : Unlocks) : Unlock :=
  match id with
  | dark_mode => at_dark_mode u
  | themes => at_themes u
  | advanced_stats => at_advanced_stats u
  end.

(** [store.unlocks[unlockId]?.unlocked ?? false] *)
Definition isUnlocked (s : GamificationState) (unlockId : UnlockId) : bool :=
  unl_unlocked (unlock unlockId (unlocks s)).

(** [store.achievements[achievementId]?.unlocked ?? false] *)
Definition hasAchievement (s : GamificationState)
    (achievementId : AchievementId) : bool :=
  ach_unlocked (achievement achievementId (achievements s)).

(** ** The journal's helpers ([src/hooks/useJournal.ts])

    The journal computes the focus level of an entry and the XP it shows for
    it before it hands the entry to [registerEntry]. *)

Definition BASE_XP : Z := 10.

Definition calculateXPEarned (focusMinutes focusLevel : Z)
    (tags : option (list string)) (templateBonus : Z) : Z :=
  let xp := BASE_XP + templateBonus in
  let xp := xp + Math_round_quot focusMinutes 6 in
  let xp :=
    if focusLevel >=? 8 then xp + 5
    else if focusLevel >=? 6 then xp + 2
    else xp in
  let xp :=
    match tags with
    | Some l =>
        if Z.of_nat (length l) >? 0
        then xp + Z.min (Z.of_nat (length l) * 2) 10
        else xp
    | None => xp
    end in
  Z.max xp 5. (* Minimum 5 XP *)

Definition focusMinutesToLevel (minutes : Z) : Z :=
  let level := Math_round_quot minutes 6 in
  Z.max 1 (Z.min 10 level).

(** ** More notions the properties are stated with *)

Definition msPerWeek : Z := 7 * msPerDay.

(** The clock reads a time from 1970 to the end of the year 9999, the years
    [toISOString] writes on four digits. *)
Definition clock_in_iso_range (clock : Z) : Prop :=
  0 <= clock < 253402300800000.

(** The fields of a quest that say what the quest is, as opposed to how far
    the player is with it. *)
Definition quest_static (q : Quest)
    : string * string * string * Z * Z * QuestType * option string * option bool :=
  (q_id q, q_title q, q_description q, q_target q, q_rewardXP q, q_type q,
   q_typeValue q, q_resetWeekly q).

(** The thresholds the achievement evaluator compares the counters with. *)
Definition achievement_threshold (id : AchievementId) : Z :=
  match id with
  | streak_warrior => 7
  | math_mastery => 10
  | deep_focus => 240
  | consistency_king => 20
  end.

(** The counter an achievement is evaluated against. *)
Definition counter_of (id : AchievementId) (c : Counters) : Z :=
  match id with
  | streak_warrior => c_streak c
  | math_mastery => c_mathTaggedEntries c
  | deep_focus => c_totalFocusMinutes c
  | consistency_king => c_totalEntries c
  end.

(** The level an unlock is evaluated against. *)
Definition unlock_threshold (id : UnlockId) : Z :=
  match id with
  | dark_mode => 3
  | themes => 5
  | advanced_stats => 7
  end.

(** The date strings on which [Date_parse] is the runtime's [new Date(s)]:
    the strings it reads as a date, and the empty string, which the runtime
    reads as the Invalid Date.  The runtime reads further layouts as dates
    which [Date_parse] does not; the properties that need a date string not
    to fall on some day or in some week are stated for these strings
    only. *)
Definition date_string_read (s : string) : Prop :=
  s = "" \/ exists t : Z, Date_parse s = TimeValue t.

(** The time values of the runtime's dates lie between these two. *)
Definition MIN_TIME_VALUE : Z := -8640000000000000.
Definition MAX_TIME_VALUE : Z := 8640000000000000.

(** [Number.MAX_SAFE_INTEGER]: up to it the runtime's numbers add integers
    exactly. *)
Definition MAX_SAFE_INTEGER : Z := 9007199254740991.

(** The streak has lapsed at the time of the clock: the last entry date
    reads as a date, the streak is positive, and the last entry falls neither
    on the clock's calendar day nor on the day before. *)
Definition streak_lapsed (clock : Z) (s : GamificationState) : Prop :=
  exists last t, lastEntryDate s = Some last /\ Date_parse last = TimeValue t
    /\ 0 < streak s
    /\ ~ same_calendar_day (TimeValue t) (Date_now clock)
    /\ ~ next_calendar_day (TimeValue t) (Date_now clock).

(** The streak is still alive at the time of the clock, or there is none:
    no last entry date, no positive streak, or a last entry on the clock's
    calendar day or on the day before. *)
Definition streak_alive (clock : Z) (s : GamificationState) : Prop :=
  truthy_string (lastEntryDate s) = false
  \/ streak s <= 0
  \/ same_calendar_day (Date_parse (default "" (lastEntryDate s))) (Date_now clock)
  \/ next_calendar_day (Date_parse (default "" (lastEntryDate s))) (Date_now clock).

(** The entry starts a streak anew: there is no last entry date (null or
    empty), or the last entry date reads as a date, the entry's date reads as
    a date or is empty, and the entry falls neither on the calendar day of
    the last entry nor on the next one. *)
Definition streak_restarts (s : GamificationState) (entry : JournalEntry) : Prop :=
  truthy_string (lastEntryDate s) = false
  \/ (exists last t, lastEntryDate s = Some last
        /\ Date_parse last = TimeValue t
        /\ date_string_read (date entry)
        /\ ~ same_calendar_day (TimeValue t) (Date_parse (date entry))
        /\ ~ next_calendar_day (TimeValue t) (Date_parse (date entry))).

(** * Properties *)

(** ** The calendar *)

Example parse_2024_01_01 :
  Date_parse "2024-01-01" = TimeValue 1704067200000.
Proof. reflexivity. Qed.

Example iso_roundtrip_example :
  toISOString (Date_parse "2024-02-29T23:59:58.123Z") = "2024-02-29T23:59:58.123Z"
  /\ getDay (Date_parse "2024-02-29T23:59:58.123Z") = Some 4
  /\ Date_parse "2023-02-29" = InvalidDate
  /\ Date_parse "" = InvalidDate
  /\ toISOString (TimeValue (-1)) = "1969-12-31T23:59:59.999Z"
  /\ toISOString (TimeValue 951782400000) = "2000-02-29T00:00:00.000Z"
  /\ toLowerCase "Math" = "math".
Proof. repeat split; vm_compute; reflexivity. Qed.


Lemma yoe_bounds (doe : Z) :
  0 <= doe < 146097 ->
  let yoe := (doe - doe / 1460 + doe / 36524 - doe / 146096) / 365 in
  0 <= yoe < 400 /\ 0 <= doe - (365 * yoe + yoe / 4 - yoe / 100) < 366.
Proof. intros H yoe. subst yoe. Z.div_mod_to_equations. lia. Qed.

(** [days_from_civil] undoes [civil_from_days], whose month and day are in
    range. *)
Lemma civil_facts (z y m d : Z) :
  civil_from_days z = (y, m, d) ->
  0 <= m <= 11 /\ 1 <= d <= 31 /\ days_from_civil y m d = z.
Proof.
  unfold civil_from_days.
  set (z' := z + 719468).
  set (era := z' / 146097).
  set (doe := z' mod 146097).
  set (yoe := (doe - doe / 1460 + doe / 36524 - doe / 146096) / 365).
  set (doy := doe - (365 * yoe + yoe / 4 - yoe / 100)).
  set (mp := (5 * doy + 2) / 153).
  intros [= <- <- <-].
  assert (Hdoe : 0 <= doe < 146097) by (apply Z.mod_pos_bound; lia).
  destruct (yoe_bounds doe Hdoe) as [Hyoe Hdoy].
  fold yoe in Hyoe, Hdoy. fold doy in Hdoy.
  assert (Hz : z' = era * 146097 + doe)
    by (unfold era, doe; pose proof (Z.div_mod z' 146097); lia).
  assert (Hmp : 0 <= mp <= 11) by (unfold mp; Z.div_mod_to_equations; lia).
  assert (Hd : 1 <= doy - (153 * mp + 2) / 5 + 1 <= 31)
    by (unfold mp; Z.div_mod_to_equations; lia).
  assert (Hdoy' : doy = doe - (365 * yoe + yoe / 4 - yoe / 100)) by reflexivity.
  assert (Hz' : z' = z + 719468) by reflexivity.
  clearbody mp doy yoe doe era z'.
  unfold days_from_civil.
  destruct (Z.ltb_spec mp 10) as [Hlt | Hge].
  - replace (mp + 2 <=? 1) with false by (symmetry; apply Z.leb_gt; lia).
    rewrite Z.add_0_r.
    replace ((yoe + era * 400) / 400) with era by (Z.div_mod_to_equations; lia).
    replace ((yoe + era * 400) mod 400) with yoe by (Z.div_mod_to_equations; lia).
    replace (mp + 2 - 2) with mp by lia.
    repeat split; try lia.
  - replace (mp - 10 <=? 1) with true by (symmetry; apply Z.leb_le; lia).
    replace ((yoe + era * 400 + 1 - 1) / 400) with era by (Z.div_mod_to_equations; lia).
    replace ((yoe + era * 400 + 1 - 1) mod 400) with yoe by (Z.div_mod_to_equations; lia).
    replace (mp - 10 + 10) with mp by lia.
    repeat split; try lia.
Qed.

Lemma civil_from_days_inj (a b : Z) :
  civil_from_days a = civil_from_days b -> a = b.
Proof.
  intros H.
  destruct (civil_from_days a) as [[ya ma] da] eqn:Ha.
  symmetry in H.
  apply civil_facts in Ha. apply civil_facts in H. lia.
Qed.

Lemma days_from_civil_day (y m d : Z) :
  days_from_civil y m d = days_from_civil y m 1 + d - 1.
Proof. unfold days_from_civil. lia. Qed.

Lemma Day_MakeDate (day time : Z) :
  0 <= time < msPerDay -> Day (MakeDate day time) = day.
Proof.
  unfold Day, MakeDate, msPerDay. intros H. Z.div_mod_to_equations. lia.
Qed.

Lemma TimeWithinDay_range (t : Z) : 0 <= TimeWithinDay t < msPerDay.
Proof. unfold TimeWithinDay, msPerDay. apply Z.mod_pos_bound. lia. Qed.

(** The two dates are compared by their calendar days. *)
Lemma isSameDay_valid (a b : Z) :
  isSameDay (TimeValue a) (TimeValue b) = (Day a =? Day b).
Proof.
  unfold isSameDay. cbn [getFullYear getMonth getDate strict_eq].
  unfold YearFromTime, MonthFromTime, DateFromTime.
  destruct (Z.eqb_spec (Day a) (Day b)) as [E | N].
  - rewrite E, !Z.eqb_refl. reflexivity.
  - destruct (civil_from_days (Day a)) as [[ya ma] da] eqn:Ha.
    destruct (civil_from_days (Day b)) as [[yb mb] db] eqn:Hb.
    cbn [fst snd].
    destruct (Z.eqb_spec ya yb), (Z.eqb_spec ma mb), (Z.eqb_spec da db);
      try reflexivity.
    subst. exfalso. apply N, civil_from_days_inj. congruence.
Qed.

Lemma isSameDay_invalid_l (d : Date) : isSameDay InvalidDate d = false.
Proof. reflexivity. Qed.

Lemma isSameDay_invalid_r (d : Date) : isSameDay d InvalidDate = false.
Proof. destruct d; reflexivity. Qed.

(** [setDate] moves a date by whole days and keeps its time of day. *)
Lemma setDate_valid (t n : Z) :
  setDate (TimeValue t) (Some n)
  = TimeValue (MakeDate (Day t - DateFromTime t + n) (TimeWithinDay t)).
Proof.
  cbn [setDate]. unfold MakeDay, YearFromTime, MonthFromTime, DateFromTime.
  destruct (civil_from_days (Day t)) as [[y m] d] eqn:H. cbn [fst snd].
  apply civil_facts in H. destruct H as (Hm & _ & H).
  rewrite Z.div_small, Z.mod_small, Z.add_0_r by lia.
  rewrite days_from_civil_day in H.
  do 2 f_equal. lia.
Qed.

Lemma isYesterday_valid (a b : Z) :
  isYesterday (TimeValue a) (TimeValue b) = (Day a =? Day b - 1).
Proof.
  unfold isYesterday. cbn [getDate num_sub].
  rewrite setDate_valid, isSameDay_valid.
  rewrite Day_MakeDate by apply TimeWithinDay_range.
  f_equal. lia.
Qed.

Lemma isYesterday_invalid_l (d : Date) : isYesterday InvalidDate d = false.
Proof. reflexivity. Qed.

Lemma isYesterday_invalid_r (d : Date) : isYesterday d InvalidDate = false.
Proof. unfold isYesterday. cbn. apply isSameDay_invalid_r. Qed.

(** The start of the week is the midnight that starts its Monday. *)
Lemma getWeekStart_valid (t : Z) :
  getWeekStart (TimeValue t) = TimeValue (MakeDate (monday_of (Day t)) 0).
Proof.
  unfold getWeekStart. cbn [getDay getDate num_sub num_add strict_eq].
  rewrite setDate_valid. cbn [setHours0].
  rewrite Day_MakeDate by apply TimeWithinDay_range.
  do 2 f_equal. unfold monday_of, WeekDay.
  destruct (Z.eqb_spec ((Day t + 4) mod 7) 0); Z.div_mod_to_equations; lia.
Qed.

Lemma getWeekStart_invalid : getWeekStart InvalidDate = InvalidDate.
Proof. reflexivity. Qed.

Lemma isSameWeek_valid (a b : Z) :
  isSameWeek (TimeValue a) (TimeValue b)
  = (monday_of (Day a) =? monday_of (Day b)).
Proof.
  unfold isSameWeek. rewrite !getWeekStart_valid, isSameDay_valid.
  rewrite !Day_MakeDate by (unfold msPerDay; lia). reflexivity.
Qed.

Lemma isSameWeek_invalid_l (d : Date) : isSameWeek InvalidDate d = false.
Proof. reflexivity. Qed.

Lemma Date_parse_empty : Date_parse "" = InvalidDate.
Proof. reflexivity. Qed.

(** ** Leveling *)

(** C8. For every integer xp >= 0 the level is floor(xp / 100), which is 0
    below 100 xp, and the progress within the level plus the threshold of the
    level, level * 100, gives back xp. *)
Theorem level_is_floor_and_progress_adds_up (points : Z) :
  0 <= points ->
  calculateLevel points = points / 100
  /\ (points < 100 -> calculateLevel points = 0)
  /\ getXPForLevel (calculateLevel points) = calculateLevel points * 100
  /\ current (getXPProgress points) + getXPForLevel (calculateLevel points)
     = points.
Proof.
  intros Hpos. unfold getXPProgress, getXPForLevel, calculateLevel.
  cbn [current].
  destruct (Z.ltb_spec points 100) as [Hlt | Hge].
  - rewrite Z.div_small by lia. repeat split; lia.
  - repeat split; lia.
Qed.

Lemma level_is_floor_and_progress_adds_up_witness :
  calculateLevel 150 = 1
  /\ current (getXPProgress 150) + getXPForLevel (calculateLevel 150) = 150.
Proof.
  destruct (level_is_floor_and_progress_adds_up 150) as (H1 & _ & _ & H2).
  - lia.
  - split; [exact H1 | exact H2].
Defined.

(** ** The streak calculator *)

Lemma truthy_string_parse (s : string) (t : Z) :
  Date_parse s = TimeValue t -> truthy_string (Some s) = true.
Proof.
  intros H. unfold truthy_string.
  destruct (String.eqb_spec s "") as [-> | _]; [discriminate | reflexivity].
Qed.

Lemma calculateStreak_valid (s : string) (tl te currentStreak : Z) :
  Date_parse s = TimeValue tl ->
  calculateStreak (Some s) currentStreak (TimeValue te)
  = if Day tl =? Day te then
      {| newStreak := currentStreak; isNewDay := false |}
    else if Day tl =? Day te - 1 then
      {| newStreak := currentStreak + 1; isNewDay := true |}
    else {| newStreak := 1; isNewDay := true |}.
Proof.
  intros Hp. unfold calculateStreak.
  rewrite (truthy_string_parse s tl Hp). cbn [negb from_option id].
  rewrite Hp, isSameDay_valid, isYesterday_valid. reflexivity.
Qed.

Lemma calculateStreak_same_day (s : string) (currentStreak : Z) (entryDate : Date) :
  same_calendar_day (Date_parse s) entryDate ->
  calculateStreak (Some s) currentStreak entryDate
  = {| newStreak := currentStreak; isNewDay := false |}.
Proof.
  intros (n & Hl & He).
  destruct (Date_parse s) as [| tl] eqn:Hp; [discriminate |].
  destruct entryDate as [| te]; [discriminate |].
  cbn in Hl, He. rewrite (calculateStreak_valid s tl te _ Hp).
  replace (Day tl =? Day te) with true by (symmetry; apply Z.eqb_eq; congruence).
  reflexivity.
Qed.

(** Whatever the dates, the streak calculator answers one of three streaks. *)
Lemma calculateStreak_range (last : option string) (currentStreak : Z)
    (entryDate : Date) :
  let r := calculateStreak last currentStreak entryDate in
  newStreak r = 1 \/ newStreak r = currentStreak
  \/ newStreak r = currentStreak + 1.
Proof.
  unfold calculateStreak.
  destruct (negb (truthy_string last)); [left; reflexivity |].
  destruct (isSameDay _ _); [right; left; reflexivity |].
  destruct (isYesterday _ _); [right; right; reflexivity | left; reflexivity].
Qed.

(** C3. The streak calculator answers streak 1 on a new day when there is no
    last entry date; the current streak and no new day when the entry falls
    on the calendar day of the last entry; the current streak plus one on a
    new day when it falls on the next calendar day; and streak 1 on a new day
    for every other gap, dates before the last entry included, whenever the
    last entry date reads as a date or is empty. *)
Theorem calculateStreak_by_calendar_day (last : option string)
    (currentStreak : Z) (entryDate : Date) :
  (last = None ->
   calculateStreak last currentStreak entryDate
   = {| newStreak := 1; isNewDay := true |})
  /\ (forall s, last = Some s ->
      same_calendar_day (Date_parse s) entryDate ->
      calculateStreak last currentStreak entryDate
      = {| newStreak := currentStreak; isNewDay := false |})
  /\ (forall s, last = Some s ->
      next_calendar_day (Date_parse s) entryDate ->
      calculateStreak last currentStreak entryDate
      = {| newStreak := currentStreak + 1; isNewDay := true |})
  /\ (forall s, last = Some s ->
      date_string_read s ->
      ~ same_calendar_day (Date_parse s) entryDate ->
      ~ next_calendar_day (Date_parse s) entryDate ->
      calculateStreak last currentStreak entryDate
      = {| newStreak := 1; isNewDay := true |}).
Proof.
  repeat split.
  - intros ->. reflexivity.
  - intros s -> Hsame. apply calculateStreak_same_day, Hsame.
  - intros s -> (n & Hl & He).
    destruct (Date_parse s) as [| tl] eqn:Hp; [discriminate |].
    destruct entryDate as [| te]; [discriminate |].
    cbn in Hl, He. injection Hl as Hl. injection He as He.
    rewrite (calculateStreak_valid s tl te _ Hp).
    replace (Day tl =? Day te) with false by (symmetry; apply Z.eqb_neq; lia).
    replace (Day tl =? Day te - 1) with true by (symmetry; apply Z.eqb_eq; lia).
    reflexivity.
  - intros s -> _ Hsame Hnext. unfold calculateStreak.
    destruct (truthy_string (Some s)); [| reflexivity]. cbn [negb from_option id].
    destruct (Date_parse s) as [| tl] eqn:Hp.
    + rewrite isSameDay_invalid_l, isYesterday_invalid_l. reflexivity.
    + destruct entryDate as [| te].
      * rewrite isSameDay_invalid_r, isYesterday_invalid_r. reflexivity.
      * rewrite isSameDay_valid, isYesterday_valid.
        destruct (Z.eqb_spec (Day tl) (Day te)) as [E | _].
        { exfalso. apply Hsame. exists (Day tl). cbn. split; congruence. }
        destruct (Z.eqb_spec (Day tl) (Day te - 1)) as [E | _].
        { exfalso. apply Hnext. exists (Day tl). cbn.
          split; [reflexivity | f_equal; lia]. }
        reflexivity.
Qed.

Lemma calculateStreak_by_calendar_day_witness :
  calculateStreak None 4 (Date_parse "2024-01-10")
  = {| newStreak := 1; isNewDay := true |}
  /\ calculateStreak (Some "2024-01-01T08:00:00.000Z") 4
       (Date_parse "2024-01-01T21:30:00.000Z")
     = {| newStreak := 4; isNewDay := false |}
  /\ calculateStreak (Some "2024-01-01T08:00:00.000Z") 4
       (Date_parse "2024-01-02T07:00:00.000Z")
     = {| newStreak := 5; isNewDay := true |}
  /\ calculateStreak (Some "2024-01-02") 4 (Date_parse "2024-01-01")
     = {| newStreak := 1; isNewDay := true |}.
Proof.
  split; [| split; [| split]].
  - apply (proj1 (calculateStreak_by_calendar_day None 4 _)). reflexivity.
  - apply (proj1 (proj2 (calculateStreak_by_calendar_day
             (Some "2024-01-01T08:00:00.000Z") 4 _))
             "2024-01-01T08:00:00.000Z" eq_refl).
    exists 19723. split; reflexivity.
  - apply (proj1 (proj2 (proj2 (calculateStreak_by_calendar_day
             (Some "2024-01-01T08:00:00.000Z") 4 _)))
             "2024-01-01T08:00:00.000Z" eq_refl).
    exists 19723. split; reflexivity.
  - apply (proj2 (proj2 (proj2 (calculateStreak_by_calendar_day
             (Some "2024-01-02") 4 _))) "2024-01-02" eq_refl).
    + right. exists 1704153600000. reflexivity.
    + intros (n & Hl & He).
      change (Some 19724 = Some n) in Hl. change (Some 19723 = Some n) in He.
      congruence.
    + intros (n & Hl & He).
      change (Some 19724 = Some n) in Hl. change (Some 19723 = Some (n + 1)) in He.
      injection Hl as Hl. injection He as He. lia.
Defined.

(** ** The store *)

Lemma exec_ret {A : Type} (a : A) (st : Store) : exec (ret a) st = st.
Proof. reflexivity. Qed.

Lemma exec_set (fn : GamificationState -> GamificationState) (st : Store) :
  exec (set fn) st = commit (fn (st_state st)) st.
Proof. reflexivity. Qed.

Lemma exec_bind {A B : Type} (m : Action A) (k : A -> Action B) (st : Store) :
  exec (bind m k) st = exec (k (fst (m st))) (exec m st).
Proof. unfold exec, bind. destruct (m st). reflexivity. Qed.

Lemma after_set (fn : GamificationState -> GamificationState)
    (s : GamificationState) :
  after (set fn) s = fn s.
Proof. reflexivity. Qed.

Lemma after_addXP (amount : Z) (s : GamificationState) :
  after (addXP amount) s = if amount <=? 0 then s else addXP_fn amount s.
Proof.
  unfold after, addXP, _addXP. destruct (amount <=? 0); reflexivity.
Qed.

Lemma after_registerEntry (clock : Z) (entry : JournalEntry)
    (s : GamificationState) :
  after (registerEntry clock entry) s
  = updateQuests_fn clock entry
      (registerEntry_fn clock entry (resetWeeklyQuests_fn clock s)).
Proof. reflexivity. Qed.

Lemma after_claimQuest (questId : string) (s : GamificationState) :
  after (claimQuest questId) s
  = match quests s !! questId with
    | None => s
    | Some quest =>
        if negb (q_completed quest) || q_claimed quest then s
        else after (addXP (q_rewardXP quest)) (claimQuest_fn questId s)
    end.
Proof.
  unfold after, claimQuest, _claimQuest, exec, bind, get. cbn [st_state store_of].
  destruct (quests s !! questId) as [quest |]; [| reflexivity].
  destruct (negb (q_completed quest) || q_claimed quest); [reflexivity |].
  unfold addXP, _addXP, set. cbn.
  destruct (q_rewardXP quest <=? 0); reflexivity.
Qed.

Lemma after_mount (clock : Z) (s : GamificationState) :
  after (mount clock) s
  = resetWeeklyQuests_fn clock (after (mountStreakCheck clock) s).
Proof.
  unfold after, mount. rewrite exec_bind. reflexivity.
Qed.

Lemma after_mountStreakCheck (clock : Z) (s : GamificationState) :
  after (mountStreakCheck clock) s = s
  \/ after (mountStreakCheck clock) s = resetStreak_fn s.
Proof.
  unfold after, mountStreakCheck, exec, bind, get. cbn [st_state store_of].
  destruct (truthy_string (lastEntryDate s) && (streak s >? 0));
    [| left; reflexivity].
  match goal with |- context [if ?c then _ else _] => destruct c end;
    [right | left]; reflexivity.
Qed.

(** ** Resetting the streak *)

(** C10. [resetStreak] sets the streak to 0 and leaves every other field of
    the state as it was: the last entry date, the longest streak, the xp, the
    counters, the achievements, the unlocks, the quests and the weekly
    tracking fields. *)
Theorem resetStreak_only_zeroes_streak (s : GamificationState) :
  let s' := after resetStreak s in
  streak s' = 0
  /\ xp s' = xp s
  /\ totalEntries s' = totalEntries s
  /\ totalFocusMinutes s' = totalFocusMinutes s
  /\ mathTaggedEntries s' = mathTaggedEntries s
  /\ lastEntryDate s' = lastEntryDate s
  /\ longestStreak s' = longestStreak s
  /\ achievements s' = achievements s
  /\ unlocks s' = unlocks s
  /\ quests s' = quests s
  /\ weeklyEntriesCount s' = weeklyEntriesCount s
  /\ weeklyHighFocusDays s' = weeklyHighFocusDays s
  /\ weekStartDate s' = weekStartDate s.
Proof. cbv zeta. repeat split. Qed.

(** ** Registering an entry *)

(** C4. When the entry falls on the calendar day of the last entry,
    [registerEntry] leaves the streak, the total of entries and the number of
    math-tagged entries as they were, adds the entry's focus minutes (0 when
    absent) to the total of focus minutes, and adds floor(focusMinutes / 5)
    to the xp and nothing else. *)
Theorem registerEntry_same_day (clock : Z) (entry : JournalEntry)
    (s : GamificationState) (last : string) :
  lastEntryDate s = Some last ->
  same_calendar_day (Date_parse last) (Date_parse (date entry)) ->
  let s' := after (registerEntry clock entry) s in
  streak s' = streak s
  /\ totalEntries s' = totalEntries s
  /\ mathTaggedEntries s' = mathTaggedEntries s
  /\ totalFocusMinutes s'
     = totalFocusMinutes s + default 0 (focusMinutes entry)
  /\ xp s' = xp s + default 0 (focusMinutes entry) / 5.
Proof.
  intros Hlast Hsame s'. subst s'. rewrite after_registerEntry.
  unfold updateQuests_fn. cbn [streak totalEntries mathTaggedEntries
    totalFocusMinutes xp].
  set (s1 := resetWeeklyQuests_fn clock s).
  assert (H1 : lastEntryDate s1 = lastEntryDate s /\ streak s1 = streak s
               /\ totalEntries s1 = totalEntries s
               /\ mathTaggedEntries s1 = mathTaggedEntries s
               /\ totalFocusMinutes s1 = totalFocusMinutes s
               /\ xp s1 = xp s).
  { unfold s1, resetWeeklyQuests_fn.
    destruct (truthy_string _ && negb _); repeat split. }
  destruct H1 as (El & Es & Ee & Em & Ef & Ex).
  unfold registerEntry_fn. cbn [streak totalEntries mathTaggedEntries
    totalFocusMinutes xp].
  rewrite El, Hlast, (calculateStreak_same_day last _ _ Hsame).
  cbn [newStreak isNewDay]. rewrite andb_false_r.
  rewrite Es, Ee, Em, Ef, Ex. repeat split.
  destruct (focusMinutes entry) as [m |]; cbn [from_option id].
  - destruct (Z.eqb_spec m 0) as [-> | _]; [reflexivity | lia].
  - reflexivity.
Qed.

Lemma registerEntry_same_day_witness :
  let entry := {| entry_id := "test-2"; date := "2024-01-01T21:30:00.000Z";
                  tags := Some ["math"]; focusMinutes := Some 32;
                  focusLevel := None |} in
  let s := after (registerEntry 1704096000000
                    {| entry_id := "test-1"; date := "2024-01-01T08:00:00.000Z";
                       tags := Some ["math"]; focusMinutes := Some 30;
                       focusLevel := None |}) INITIAL_STATE in
  let s' := after (registerEntry 1704144600000 entry) s in
  streak s' = streak s
  /\ totalEntries s' = totalEntries s
  /\ mathTaggedEntries s' = mathTaggedEntries s
  /\ totalFocusMinutes s' = totalFocusMinutes s + 32
  /\ xp s' = xp s + 6.
Proof.
  cbv zeta.
  apply (registerEntry_same_day 1704144600000
           {| entry_id := "test-2"; date := "2024-01-01T21:30:00.000Z";
              tags := Some ["math"]; focusMinutes := Some 32;
              focusLevel := None |} _ "2024-01-01T08:00:00.000Z").
  - reflexivity.
  - exists 19723. split; reflexivity.
Defined.

(** ** Claiming a quest *)

Lemma alter_claim_it (questId : string) (q : Quest) (qs : gmap string Quest) :
  qs !! questId = Some q ->
  alter claim_it questId qs = <[questId := claim_it q]> qs.
Proof.
  intros H. apply map_eq. intros i.
  rewrite lookup_alter, lookup_insert.
  destruct (decide (questId = i)) as [<- |]; [rewrite H |]; reflexivity.
Qed.



(** The clock and the entry of the sample data agree. *)
Example sample_clock_is_entry_date :
  Date_parse (date entry_2024_01_03) = Date_now clock_2024_01_03
  /\ Date_parse (date entry_2024_01_04) = Date_now clock_2024_01_04
  /\ getDay (Date_now clock_2024_01_03) = Some 3.
Proof. repeat split; vm_compute; reflexivity. Qed.

(** ** The weekly counters *)

(** Once [registerEntry] has committed the entry's date as the last entry
    date, the quest update never takes the entry for a new day. *)
Lemma updateQuests_after_commit_not_new_day (d : string) (now : Date) :
  (negb (truthy_string (Some d))
   || negb (isSameDay (Date_parse d) (Date_parse d)))
  && isSameWeek (Date_parse d) now = false.
Proof.
  destruct (Date_parse d) as [| t] eqn:Hp.
  - rewrite isSameWeek_invalid_l. apply andb_false_r.
  - rewrite (truthy_string_parse d t Hp), isSameDay_valid, Z.eqb_refl.
    reflexivity.
Qed.

(** Whatever the entry, [registerEntry] leaves the weekly counters at what
    the weekly reset check made them. *)
Lemma registerEntry_keeps_weekly_counters (clock : Z) (entry : JournalEntry)
    (s : GamificationState) :
  let s' := after (registerEntry clock entry) s in
  weeklyEntriesCount s' = weeklyEntriesCount (resetWeeklyQuests_fn clock s)
  /\ weeklyHighFocusDays s' = weeklyHighFocusDays (resetWeeklyQuests_fn clock s).
Proof.
  cbv zeta. rewrite after_registerEntry.
  unfold updateQuests_fn. cbn [weeklyEntriesCount weeklyHighFocusDays].
  change (lastEntryDate (registerEntry_fn clock entry (resetWeeklyQuests_fn clock s)))
    with (Some (date entry)).
  cbn [from_option id].
  rewrite updateQuests_after_commit_not_new_day. split; reflexivity.
Qed.

(** The quest update alone, run before the entry's date is committed, does
    count the entry. *)
Lemma updateQuestsOnEntry_counts_new_day :
  let s' := after (updateQuestsOnEntry clock_2024_01_03 entry_2024_01_03)
              INITIAL_STATE in
  weeklyEntriesCount s' = 1
  /\ q_progress <$> quests s' !! "weekly-entries-3" = Some 1.
Proof. split; vm_compute; reflexivity. Qed.

(** C1. A call of [registerEntry] with an entry of a new calendar day that
    falls in the current week is to raise the weekly count of entries by 1,
    and the count of high-focus days by 1 when the entry's focus level is at
    least 7.  The code does not: for the first entry ever, written on
    Wednesday 3 January 2024 while the clock reads that day, it leaves the
    weekly count of entries at 0 and the progress of the quest
    [weekly-entries-3] at 0; for the entry of the next day, with focus level
    8, it leaves both weekly counters at 0. *)
Theorem registerEntry_new_day_leaves_weekly_count :
  lastEntryDate INITIAL_STATE = None
  /\ same_iso_week (Date_parse (date entry_2024_01_03)) (Date_now clock_2024_01_03)
  /\ (let s1 := after (registerEntry clock_2024_01_03 entry_2024_01_03)
                  INITIAL_STATE in
      weeklyEntriesCount s1 = 0
      /\ q_progress <$> quests s1 !! "weekly-entries-3" = Some 0
      /\ next_calendar_day (Date_parse (default "" (lastEntryDate s1)))
           (Date_parse (date entry_2024_01_04))
      /\ same_iso_week (Date_parse (date entry_2024_01_04))
           (Date_now clock_2024_01_04)
      /\ entryFocusLevel entry_2024_01_04 = 8
      /\ let s2 := after (registerEntry clock_2024_01_04 entry_2024_01_04) s1 in
         weeklyEntriesCount s2 = 0 /\ weeklyHighFocusDays s2 = 0).
Proof.
  split; [reflexivity |]. split.
  { exists 19725, 19725. repeat split. }
  cbv zeta. split; [vm_compute; reflexivity |].
  split; [vm_compute; reflexivity |]. split.
  { exists 19725. split; vm_compute; reflexivity. } split.
  { exists 19726, 19726. repeat split. }
  split; [reflexivity |]. split; vm_compute; reflexivity.
Qed.

(** ** The commits of [registerEntry] *)

(** C2, as the code has it. [registerEntry] commits three states in a row:
    the one the weekly reset check makes of the prior state, the one steps 2
    to 7 make of that committed state, read once, and the one the quest
    update makes of the second.  The first commit can be observed before
    steps 2 to 7 are applied.  The state it ends in is the one the single
    transition for steps 1 to 7, followed by the quest update, ends in. *)
Theorem registerEntry_three_commits (clock : Z) (entry : JournalEntry)
    (st : Store) :
  let s1 := resetWeeklyQuests_fn clock (st_state st) in
  let s2 := registerEntry_fn clock entry s1 in
  let s3 := updateQuests_fn clock entry s2 in
  exec (registerEntry clock entry) st
  = {| st_state := s3; st_commits := st_commits st ++ [s1; s2; s3] |}
  /\ exec (registerEntry_atomic clock entry) st
     = {| st_state := s3; st_commits := st_commits st ++ [s2; s3] |}
  /\ st_state (exec (registerEntry clock entry) st)
     = st_state (exec (registerEntry_atomic clock entry) st).
Proof.
  cbv zeta. unfold exec, registerEntry, _registerEntry, registerEntry_atomic,
    _resetWeeklyQuests, _updateQuests, steps_1_to_7, bind, get, set.
  cbn [fst snd st_state st_commits].
  rewrite <- !app_assoc. repeat split.
Qed.

(** Counterexample to C2 as the specification states it, on the initial
    state: the store sees three commits where the single transition for steps
    1 to 7 gives two, and the first of them is a state in which the week has
    been started and the entry not yet registered. *)
Lemma registerEntry_not_one_commit :
  let st := exec (registerEntry clock_2024_01_03 entry_2024_01_03)
              (store_of INITIAL_STATE) in
  let st' := exec (registerEntry_atomic clock_2024_01_03 entry_2024_01_03)
               (store_of INITIAL_STATE) in
  st <> st'
  /\ length (st_commits st) = 3%nat
  /\ length (st_commits st') = 2%nat
  /\ (exists s1, head (st_commits st) = Some s1
        /\ weekStartDate s1 = Some "2024-01-01T00:00:00.000Z"
        /\ lastEntryDate s1 = None
        /\ totalEntries s1 = 0
        /\ s1 <> INITIAL_STATE
        /\ s1 <> steps_1_to_7 clock_2024_01_03 entry_2024_01_03 INITIAL_STATE).
Proof.
  cbv zeta. split; [| split; [reflexivity | split; [reflexivity |]]].
  - intros H. apply (f_equal (fun st => length (st_commits st))) in H.
    discriminate H.
  - eexists. split; [reflexivity |].
    split; [vm_compute; reflexivity |]. split; [reflexivity |].
    split; [reflexivity |]. split.
    + intros H. apply (f_equal weekStartDate) in H. discriminate H.
    + intros H. apply (f_equal lastEntryDate) in H. discriminate H.
Qed.

(** ** Invariants of the engine *)

Section Preservation.

Variable P : GamificationState -> Prop.

Hypothesis P_addXP : forall amount s, P s -> P (addXP_fn amount s).
Hypothesis P_updateStreak : forall d s, P s -> P (updateStreak_fn d s).
Hypothesis P_resetStreak : forall s, P s -> P (resetStreak_fn s).
Hypothesis P_resetWeeklyQuests :
  forall clock s, P s -> P (resetWeeklyQuests_fn clock s).
Hypothesis P_updateQuests :
  forall clock entry s, P s -> P (updateQuests_fn clock entry s).
Hypothesis P_claimQuest :
  forall questId q s, claimable questId s q -> P s -> P (claimQuest_fn questId s).
Hypothesis P_registerEntry :
  forall clock entry s, P s -> P (registerEntry_fn clock entry s).

(** A property that every function given to [set] keeps is kept by every
    call but [resetState]. *)
Lemma perform_keeps (m : Mutator) (s : GamificationState) :
  is_ResetState m = false -> P s -> P (after (perform m) s).
Proof.
  intros Hm Hs. destruct m; cbn [perform]; try discriminate Hm.
  - rewrite after_addXP. destruct (amount <=? 0); auto.
  - rewrite after_registerEntry. auto.
  - rewrite after_claimQuest.
    destruct (quests s !! questId) as [q |] eqn:Hq; [| exact Hs].
    destruct (q_completed q) eqn:Hc; [| exact Hs].
    destruct (q_claimed q) eqn:Hcl; [exact Hs |]. cbn [negb orb].
    rewrite after_addXP.
    assert (P (claimQuest_fn questId s))
      by (apply (P_claimQuest questId q); [repeat split |]; assumption).
    destruct (q_rewardXP q <=? 0); auto.
  - apply P_resetStreak, Hs.
  - apply P_resetWeeklyQuests, Hs.
  - apply P_updateStreak, Hs.
  - apply P_updateQuests, Hs.
  - rewrite after_mount. apply P_resetWeeklyQuests.
    destruct (after_mountStreakCheck clock s) as [-> | ->]; auto.
Qed.

Hypothesis P_initial : P INITIAL_STATE.

Lemma perform_keeps_all (m : Mutator) (s : GamificationState) :
  P s -> P (after (perform m) s).
Proof.
  intros Hs. destruct (is_ResetState m) eqn:Hm.
  - destruct m; try discriminate Hm. exact P_initial.
  - apply perform_keeps; assumption.
Qed.

Lemma reachable_keeps (s : GamificationState) : reachable s -> P s.
Proof.
  induction 1 as [| s m _ IH]; [exact P_initial | apply perform_keeps_all, IH].
Qed.

End Preservation.

(** *** The longest streak *)

Lemma resetWeeklyQuests_fn_frame (clock : Z) (s : GamificationState) :
  let s' := resetWeeklyQuests_fn clock s in
  xp s' = xp s /\ totalEntries s' = totalEntries s
  /\ totalFocusMinutes s' = totalFocusMinutes s
  /\ mathTaggedEntries s' = mathTaggedEntries s
  /\ streak s' = streak s /\ lastEntryDate s' = lastEntryDate s
  /\ longestStreak s' = longestStreak s
  /\ achievements s' = achievements s /\ unlocks s' = unlocks s.
Proof.
  unfold resetWeeklyQuests_fn.
  destruct (truthy_string _ && negb _); repeat split.
Qed.

Lemma streak_inv_reachable (s : GamificationState) :
  reachable s -> streak_inv s.
Proof.
  apply reachable_keeps; unfold streak_inv.
  - intros amount s0 H. exact H.
  - intros d s0 H. cbn [updateStreak_fn streak longestStreak].
    pose proof (calculateStreak_range (lastEntryDate s0) (streak s0) (Date_parse d)).
    cbv zeta in *. lia.
  - intros s0 H. cbn. lia.
  - intros clock s0 H.
    destruct (resetWeeklyQuests_fn_frame clock s0) as (_ & _ & _ & _ & -> & _ & -> & _).
    exact H.
  - intros clock entry s0 H. exact H.
  - intros questId q s0 _ H. exact H.
  - intros clock entry s0 H. cbn [registerEntry_fn streak longestStreak].
    pose proof (calculateStreak_range (lastEntryDate s0) (streak s0)
                  (Date_parse (date entry))).
    cbv zeta in *. lia.
  - cbn. lia.
Qed.

Lemma longestStreak_grows (m : Mutator) (s : GamificationState) :
  is_ResetState m = false ->
  longestStreak s <= longestStreak (after (perform m) s).
Proof.
  intros Hm.
  apply (perform_keeps (fun x => longestStreak s <= longestStreak x));
    try assumption; try lia.
  - intros amount s0 H. exact H.
  - intros d s0 H. cbn [updateStreak_fn longestStreak]. lia.
  - intros s0 H. exact H.
  - intros clock s0 H.
    destruct (resetWeeklyQuests_fn_frame clock s0) as (_ & _ & _ & _ & _ & _ & -> & _).
    exact H.
  - intros clock entry s0 H. exact H.
  - intros questId q s0 _ H. exact H.
  - intros clock entry s0 H. cbn [registerEntry_fn longestStreak]. lia.
Qed.

(** C7, as the code has it. The longest streak never decreases across a call
    other than [resetState], which sets it to 0; and in every state the
    engine reaches, the longest streak is at least the streak. *)
Theorem longestStreak_monotone_but_for_reset :
  (forall m s, is_ResetState m = false ->
     longestStreak s <= longestStreak (after (perform m) s))
  /\ (forall s, longestStreak (after (perform ResetState) s) = 0)
  /\ (forall s, reachable s -> streak s <= longestStreak s).
Proof.
  split; [exact longestStreak_grows |]. split; [reflexivity |].
  intros s H. apply streak_inv_reachable in H. unfold streak_inv in H. lia.
Qed.

Lemma longestStreak_monotone_but_for_reset_witness :
  let s := after (perform (RegisterEntry clock_2024_01_03 entry_2024_01_03))
             INITIAL_STATE in
  longestStreak s
  <= longestStreak
       (after (perform (RegisterEntry clock_2024_01_04 entry_2024_01_04)) s)
  /\ streak s <= longestStreak s.
Proof.
  cbv zeta. split.
  - apply (proj1 longestStreak_monotone_but_for_reset). reflexivity.
  - apply (proj2 (proj2 longestStreak_monotone_but_for_reset)).
    apply reachable_step, reachable_initial.
Defined.

(** Counterexample to C7 as the specification states it: after one entry
    the longest streak is 1, and [resetState] brings it down to 0. *)
Lemma resetState_lowers_longestStreak :
  let s := after (perform (RegisterEntry clock_2024_01_03 entry_2024_01_03))
             INITIAL_STATE in
  reachable s
  /\ longestStreak s = 1
  /\ longestStreak (after (perform ResetState) s) = 0
  /\ ~ longestStreak s <= longestStreak (after (perform ResetState) s).
Proof.
  cbv zeta. split; [apply reachable_step, reachable_initial |].
  split; [vm_compute; reflexivity |]. split; [reflexivity |].
  change (longestStreak (after (perform ResetState) _)) with 0.
  replace (longestStreak _) with 1 by (vm_compute; reflexivity). lia.
Qed.

(** *** Achievements *)

(** The evaluator leaves an unlocked achievement as it is. *)
Lemma updateAchievements_frozen (id : AchievementId) (clock : Date)
    (a : Achievements) (c : Counters) :
  ach_unlocked (achievement id a) = true ->
  achievement id (updateAchievements clock a c) = achievement id a.
Proof.
  intros H. unfold updateAchievements.
  destruct a as [a1 a2 a3 a4].
  cbn [at_streak_warrior at_math_mastery at_deep_focus at_consistency_king].
  destruct (ach_unlocked a1) eqn:H1;
    cbn [negb at_streak_warrior at_math_mastery at_deep_focus
         at_consistency_king];
    (destruct (ach_unlocked a2) eqn:H2;
     cbn [negb at_streak_warrior at_math_mastery at_deep_focus
          at_consistency_king];
     (destruct (ach_unlocked a3) eqn:H3;
      cbn [negb at_streak_warrior at_math_mastery at_deep_focus
           at_consistency_king];
      (destruct (ach_unlocked a4) eqn:H4;
       cbn [negb at_streak_warrior at_math_mastery at_deep_focus
            at_consistency_king];
       destruct id;
       cbn [achievement at_streak_warrior at_math_mastery at_deep_focus
            at_consistency_king] in H |- *;
       congruence))).
Qed.

Lemma perform_keeps_unlocked (id : AchievementId) (m : Mutator)
    (s : GamificationState) :
  is_ResetState m = false ->
  ach_unlocked (achievement id (achievements s)) = true ->
  achievement id (achievements (after (perform m) s))
  = achievement id (achievements s).
Proof.
  intros Hm Hu.
  apply (perform_keeps
           (fun x => achievement id (achievements x)
                     = achievement id (achievements s)));
    try assumption; try reflexivity.
  - intros amount s0 H. exact H.
  - intros d s0 H. exact H.
  - intros s0 H. exact H.
  - intros clock s0 H.
    destruct (resetWeeklyQuests_fn_frame clock s0) as (_ & _ & _ & _ & _ & _ & _ & -> & _).
    exact H.
  - intros clock entry s0 H. exact H.
  - intros questId q s0 _ H. exact H.
  - intros clock entry s0 H. cbn [registerEntry_fn achievements].
    rewrite updateAchievements_frozen; [exact H |]. rewrite H. exact Hu.
Qed.

(** C6, as the code has it. Once an achievement is unlocked, every sequence
    of calls in which [resetState] does not occur leaves it as it is:
    unlocked, with the same progress and the same time of unlocking,
    whatever becomes of the counters.  [resetState] puts every achievement
    back to its locked default. *)
Theorem unlocked_achievement_frozen_but_for_reset :
  (forall (id : AchievementId) (ms : list Mutator) (s : GamificationState),
     ach_unlocked (achievement id (achievements s)) = true ->
     no_reset ms ->
     achievement id (achievements (run ms s)) = achievement id (achievements s)
     /\ ach_unlocked (achievement id (achievements (run ms s))) = true)
  /\ (forall (id : AchievementId) (s : GamificationState),
       achievement id (achievements (after (perform ResetState) s))
       = achievement id DEFAULT_ACHIEVEMENTS
       /\ ach_unlocked (achievement id (achievements (after (perform ResetState) s)))
          = false).
Proof.
  split.
  - intros id ms. induction ms as [| m ms IH]; intros s Hu Hms.
    + split; [reflexivity | exact Hu].
    + inversion Hms as [| ? ? Hm Hms']; subst.
      change (run (m :: ms) s) with (run ms (after (perform m) s)).
      pose proof (perform_keeps_unlocked id m s Hm Hu) as E.
      destruct (IH (after (perform m) s)) as [E' U'];
        [rewrite E; exact Hu | exact Hms' |].
      split; [rewrite E'; exact E | exact U'].
  - intros id s. split; [reflexivity | destruct id; reflexivity].
Qed.

Lemma unlocked_achievement_frozen_but_for_reset_witness :
  let s := run [RegisterEntry clock_2024_01_04 entry_2024_01_04] INITIAL_STATE in
  let ms := [ResetStreak; AddXP 500;
             RegisterEntry clock_2024_01_03 entry_2024_01_03] in
  ach_unlocked (achievement deep_focus (achievements s)) = true
  /\ achievement deep_focus (achievements (run ms s))
     = achievement deep_focus (achievements s).
Proof.
  cbv zeta. split; [vm_compute; reflexivity |].
  apply (proj1 unlocked_achievement_frozen_but_for_reset deep_focus).
  - vm_compute. reflexivity.
  - repeat constructor.
Defined.

(** Counterexample to C6 as the specification states it: the entry of four
    hours of focus unlocks [deep-focus], and [resetState] locks it again. *)
Lemma resetState_relocks_achievement :
  let s := run [RegisterEntry clock_2024_01_04 entry_2024_01_04] INITIAL_STATE in
  ach_unlocked (achievement deep_focus (achievements s)) = true
  /\ ach_unlocked (achievement deep_focus (achievements (run [ResetState] s)))
     = false.
Proof. split; vm_compute; reflexivity. Qed.

(** *** Quests *)

Lemma resetWeeklyQuest_ok (weekStart : string) (q : Quest) :
  0 < q_target q /\ quest_ok q ->
  0 < q_target (resetWeeklyQuest weekStart q)
  /\ quest_ok (resetWeeklyQuest weekStart q).
Proof.
  intros [Ht Hq]. unfold resetWeeklyQuest.
  destruct (truthy_flag (q_resetWeekly q)); [| split; assumption].
  unfold quest_ok. cbn. repeat split; try lia; discriminate.
Qed.

Lemma claim_it_ok (q : Quest) :
  q_completed q = true ->
  0 < q_target q /\ quest_ok q ->
  0 < q_target (claim_it q) /\ quest_ok (claim_it q).
Proof.
  unfold quest_ok. cbn. intros Hc (Ht & Hp & Hcp & _).
  repeat split; try lia; try apply Hcp; auto.
Qed.

Lemma updateQuest_ok (s : GamificationState) (entry : JournalEntry)
    (entryDate : Date) (isNewDay : bool) (w h : Z) (q : Quest) :
  0 <= streak s -> 0 <= totalEntries s -> 0 <= w -> 0 <= h ->
  0 < q_target q /\ quest_ok q ->
  0 < q_target (updateQuest s entry entryDate isNewDay w h q)
  /\ quest_ok (updateQuest s entry entryDate isNewDay w h q).
Proof.
  intros Hs He Hw Hh [Ht Hq]. unfold updateQuest.
  destruct (q_completed q) eqn:Hc; [split; assumption |].
  destruct Hq as (Hp & Hcp & Hcl).
  match goal with
  | |- context [Z.min ?np _] => set (newProgress := np)
  end.
  assert (Hnp : 0 <= newProgress).
  { unfold newProgress. destruct (q_type q).
    - destruct (truthy_flag _); [lia | destruct isNewDay; lia].
    - destruct (truthy_string _); [destruct (_ && _) |]; lia.
    - destruct (truthy_flag _); [lia | destruct (_ && _); lia].
    - pose proof (calculateStreak_range (lastEntryDate s) (streak s) entryDate).
      cbv zeta in *. lia. }
  clearbody newProgress. unfold quest_ok. cbn.
  rewrite Z.geb_leb.
  destruct (Z.leb_spec (q_target q) newProgress) as [Hge | Hlt].
  - rewrite Z.min_r by lia. repeat split; try lia.
  - rewrite Z.min_l by lia. repeat split; try lia; try discriminate.
    intros Hclaimed. apply Hcl in Hclaimed. congruence.
Qed.

Lemma default_quests_ok (questId : string) (q : Quest) :
  DEFAULT_QUESTS !! questId = Some q -> 0 < q_target q /\ quest_ok q.
Proof.
  unfold DEFAULT_QUESTS. rewrite !lookup_insert, lookup_empty.
  repeat case_decide; intros [= <-]; unfold quest_ok; cbn;
    repeat split; try lia; discriminate.
Qed.

Lemma quests_inv_reachable (s : GamificationState) :
  reachable s -> quests_inv s.
Proof.
  apply reachable_keeps; unfold quests_inv.
  - intros amount s0 H. exact H.
  - intros d s0 (Hs & He & Hw & Hh & Hq).
    cbn [updateStreak_fn streak totalEntries weeklyEntriesCount
         weeklyHighFocusDays quests].
    pose proof (calculateStreak_range (lastEntryDate s0) (streak s0) (Date_parse d)).
    cbv zeta in *. repeat split; try lia; apply (Hq questId q); assumption.
  - intros s0 (Hs & He & Hw & Hh & Hq). cbn. repeat split; try lia;
      apply (Hq questId q); assumption.
  - intros clock s0 (Hs & He & Hw & Hh & Hq). unfold resetWeeklyQuests_fn.
    generalize (toISOString (getWeekStart (Date_now clock))). intros weekStart.
    destruct (truthy_string _ && negb _);
      cbn [streak totalEntries weeklyEntriesCount weeklyHighFocusDays quests];
      (split; [lia |]); (split; [lia |]); (split; [lia |]); (split; [lia |]).
    + intros questId q. rewrite lookup_fmap.
      destruct (quests s0 !! questId) as [q0 |] eqn:E; [| discriminate].
      intros [= <-]. apply resetWeeklyQuest_ok, (Hq questId q0 E).
    + exact Hq.
  - intros clock entry s0 (Hs & He & Hw & Hh & Hq). unfold updateQuests_fn.
    cbn [streak totalEntries weeklyEntriesCount weeklyHighFocusDays quests].
    match goal with
    | |- context [updateQuest _ _ ?d ?n ?w ?h] =>
        assert (Hw' : 0 <= w) by (destruct (_ && _); lia);
        assert (Hh' : 0 <= h)
          by (destruct (_ && _); [destruct (_ >=? _) |]; lia);
        generalize dependent h; generalize dependent w;
        generalize n; generalize d
    end.
    intros entryDate isNewDay w Hw' h Hh'.
    (split; [lia |]); (split; [lia |]); (split; [exact Hw' |]);
      (split; [exact Hh' |]).
    intros questId q. rewrite lookup_fmap.
    destruct (quests s0 !! questId) as [q0 |] eqn:E; [| discriminate].
    intros [= <-]. apply updateQuest_ok; try assumption. apply (Hq questId q0 E).
  - intros questId q0 s0 (Hq0 & Hc & _) (Hs & He & Hw & Hh & Hq).
    cbn [claimQuest_fn streak totalEntries weeklyEntriesCount
         weeklyHighFocusDays quests].
    (split; [lia |]); (split; [lia |]); (split; [lia |]); (split; [lia |]).
    intros i q. rewrite lookup_alter.
    destruct (decide (questId = i)) as [<- |].
    + rewrite Hq0. intros [= <-]. apply claim_it_ok; [exact Hc |].
      apply (Hq questId q0 Hq0).
    + apply Hq.
  - intros clock entry s0 (Hs & He & Hw & Hh & Hq).
    cbn [registerEntry_fn streak totalEntries weeklyEntriesCount
         weeklyHighFocusDays quests].
    pose proof (calculateStreak_range (lastEntryDate s0) (streak s0)
                  (Date_parse (date entry))).
    cbv zeta in *.
    (split; [lia |]);
      (split; [destruct (isNewDay _); lia |]); (split; [lia |]); (split; [lia |]).
    exact Hq.
  - cbn [INITIAL_STATE streak totalEntries weeklyEntriesCount
         weeklyHighFocusDays quests].
    (split; [lia |]); (split; [lia |]); (split; [lia |]); (split; [lia |]).
    exact default_quests_ok.
Qed.

(** C5. In every state of the engine, the initial one and the one after
    each call ([registerEntry], [addXP], [claimQuest], [resetStreak],
    [resetWeeklyQuests], [resetState], the per-entry quest update and the
    others), every quest has its progress between 0 and its target, is
    completed exactly when its progress has reached its target, and is
    claimed only if completed. *)
Theorem quests_stay_well_formed (s : GamificationState) (questId : string)
    (q : Quest) :
  reachable s ->
  quests s !! questId = Some q ->
  0 <= q_progress q <= q_target q
  /\ (q_completed q = true <-> q_target q <= q_progress q)
  /\ (q_claimed q = true -> q_completed q = true).
Proof.
  intros Hr Hq. apply quests_inv_reachable in Hr.
  destruct Hr as (_ & _ & _ & _ & H). apply (H questId q Hq).
Qed.

Lemma quests_stay_well_formed_witness :
  let s := after (perform (UpdateQuestsOnEntry clock_2024_01_03 entry_2024_01_03))
             INITIAL_STATE in
  quests s !! "weekly-entries-3" = Some weekly_entries_3_one
  /\ quest_ok weekly_entries_3_one.
Proof.
  cbv zeta. split; [vm_compute; reflexivity |]. unfold quest_ok.
  apply (quests_stay_well_formed
           (after (perform (UpdateQuestsOnEntry clock_2024_01_03 entry_2024_01_03))
              INITIAL_STATE)
           "weekly-entries-3").
  - apply reachable_step, reachable_initial.
  - vm_compute. reflexivity.
Defined.

(** * Further properties *)

(** ** Calendar helpers *)

Lemma isSameDay_iff_same_calendar_day_aux (date1 date2 : Date) :
  isSameDay date1 date2 = true <-> same_calendar_day date1 date2.
Proof.
  destruct date1 as [| a], date2 as [| b].
  - split; [discriminate | intros (n & H & _); discriminate H].
  - split; [discriminate | intros (n & H & _); discriminate H].
  - rewrite isSameDay_invalid_r.
    split; [discriminate | intros (n & _ & H); discriminate H].
  - rewrite isSameDay_valid, Z.eqb_eq. split.
    + intros E. exists (Day a). cbn. split; congruence.
    + intros (n & Ha & Hb). cbn in Ha, Hb. congruence.
Qed.

(** X1. [isSameDay] holds exactly when both dates are valid and fall on the
    same calendar day; an Invalid Date is the same day as nothing, itself
    included. *)
Theorem isSameDay_iff_same_calendar_day (date1 date2 : Date) :
  isSameDay date1 date2 = true <-> same_calendar_day date1 date2.
Proof.
  destruct date1 as [| a], date2 as [| b].
  - split; [discriminate | intros (n & H & _); discriminate H].
  - split; [discriminate | intros (n & H & _); discriminate H].
  - rewrite isSameDay_invalid_r.
    split; [discriminate | intros (n & _ & H); discriminate H].
  - rewrite isSameDay_valid, Z.eqb_eq. split.
    + intros E. exists (Day a). cbn. split; congruence.
    + intros (n & Ha & Hb). cbn in Ha, Hb. congruence.
Qed.

Lemma isSameDay_iff_same_calendar_day_witness :
  isSameDay (Date_parse "2024-01-03T08:00:00.000Z")
            (Date_parse "2024-01-03T23:59:59.999Z") = true.
Proof.
  apply (proj2 (isSameDay_iff_same_calendar_day _ _)).
  exists 19725. split; reflexivity.
Defined.

(** X2. [isYesterday date1 date2] holds exactly when both dates are valid
    and [date2] falls on the calendar day after [date1]'s, across the ends
    of months and years as well. *)
Theorem isYesterday_iff_next_calendar_day (date1 date2 : Date) :
  isYesterday date1 date2 = true <-> next_calendar_day date1 date2.
Proof.
  destruct date1 as [| a], date2 as [| b].
  - split; [discriminate | intros (n & H & _); discriminate H].
  - split; [discriminate | intros (n & H & _); discriminate H].
  - rewrite isYesterday_invalid_r.
    split; [discriminate | intros (n & _ & H); discriminate H].
  - rewrite isYesterday_valid, Z.eqb_eq. split.
    + intros E. exists (Day a). cbn. split; [reflexivity | f_equal; lia].
    + intros (n & Ha & Hb). cbn in Ha, Hb.
      injection Ha as Ha. injection Hb as Hb. lia.
Qed.

Lemma isYesterday_iff_next_calendar_day_witness :
  isYesterday (Date_parse "2023-12-31T23:00:00.000Z")
              (Date_parse "2024-01-01T01:00:00.000Z") = true.
Proof.
  apply (proj2 (isYesterday_iff_next_calendar_day _ _)).
  exists 19722. split; reflexivity.
Defined.

Lemma monday_of_range (n : Z) :
  monday_of n <= n < monday_of n + 7 /\ (monday_of n + 4) mod 7 = 1.
Proof. unfold monday_of. Z.div_mod_to_equations. lia. Qed.

Lemma monday_of_unique (n k : Z) :
  k <= n < k + 7 -> (k + 4) mod 7 = 1 -> monday_of n = k.
Proof. unfold monday_of. intros H1 H2. Z.div_mod_to_equations. lia. Qed.

Lemma getWeekStart_is_monday_midnight_aux (t : Z) :
  exists ws : Z,
    getWeekStart (TimeValue t) = TimeValue ws
    /\ getDay (TimeValue ws) = Some 1
    /\ TimeWithinDay ws = 0
    /\ ws <= t < ws + msPerWeek.
Proof.
  exists (MakeDate (monday_of (Day t)) 0).
  pose proof (monday_of_range (Day t)) as [Hr Hm].
  assert (HD : Day (MakeDate (monday_of (Day t)) 0) = monday_of (Day t))
    by (apply Day_MakeDate; unfold msPerDay; lia).
  split; [apply getWeekStart_valid |]. split.
  { cbn [getDay]. unfold WeekDay. rewrite HD. f_equal. exact Hm. }
  split.
  { unfold TimeWithinDay, MakeDate, msPerDay. Z.div_mod_to_equations. lia. }
  clear HD Hm. revert Hr. generalize (monday_of (Day t)). intros k Hr.
  unfold msPerWeek, MakeDate, Day in *. unfold msPerDay in *.
  Z.div_mod_to_equations. lia.
Qed.

(** X3. The Invalid Date has the Invalid Date for its start of week.  For a
    date whose time value lies in the range of the runtime's dates, a week or
    more after its first one (so that the Monday before it is a date of the
    runtime too), the start of the week is a Monday, at midnight, not after
    the date and less than seven days before it, and itself in the range of
    the runtime's dates; the start of the week of a start of week is
    itself. *)
Theorem getWeekStart_is_monday_midnight (t : Z) :
  getWeekStart InvalidDate = InvalidDate
  /\ (MIN_TIME_VALUE + msPerWeek <= t <= MAX_TIME_VALUE ->
      exists ws : Z,
        getWeekStart (TimeValue t) = TimeValue ws
        /\ getDay (TimeValue ws) = Some 1
        /\ TimeWithinDay ws = 0
        /\ ws <= t < ws + msPerWeek
        /\ MIN_TIME_VALUE <= ws <= MAX_TIME_VALUE
        /\ getWeekStart (TimeValue ws) = TimeValue ws).
Proof.
  split; [reflexivity |]. intros Ht.
  exists (MakeDate (monday_of (Day t)) 0).
  pose proof (monday_of_range (Day t)) as [Hr Hm].
  assert (HD : Day (MakeDate (monday_of (Day t)) 0) = monday_of (Day t))
    by (apply Day_MakeDate; unfold msPerDay; lia).
  split; [apply getWeekStart_valid |]. split.
  { cbn [getDay]. unfold WeekDay. rewrite HD. f_equal. exact Hm. }
  split.
  { unfold TimeWithinDay, MakeDate, msPerDay. Z.div_mod_to_equations. lia. }
  assert (Hws : MakeDate (monday_of (Day t)) 0 <= t
                < MakeDate (monday_of (Day t)) 0 + msPerWeek).
  { clear HD Hm Ht. revert Hr. generalize (monday_of (Day t)). intros k Hr.
    unfold msPerWeek, MakeDate, Day in *. unfold msPerDay in *.
    Z.div_mod_to_equations. lia. }
  split; [exact Hws |]. split; [lia |].
  rewrite getWeekStart_valid, HD. do 2 f_equal.
  apply monday_of_unique; [lia | exact Hm].
Qed.

Lemma getWeekStart_is_monday_midnight_witness :
  exists ws : Z,
    getWeekStart (TimeValue clock_2024_01_03) = TimeValue ws
    /\ getDay (TimeValue ws) = Some 1
    /\ TimeWithinDay ws = 0
    /\ ws <= clock_2024_01_03 < ws + msPerWeek
    /\ MIN_TIME_VALUE <= ws <= MAX_TIME_VALUE
    /\ getWeekStart (TimeValue ws) = TimeValue ws.
Proof.
  apply (proj2 (getWeekStart_is_monday_midnight clock_2024_01_03)).
  split; intros H; discriminate H.
Defined.

(** X4. Two dates are in the same week exactly when both are valid and the
    second falls in the seven days that begin at the start of the first
    one's week. *)
Theorem isSameWeek_iff_within_week (date : Date) (reference : Date) :
  isSameWeek date reference = true
  <-> exists ws r : Z,
        getWeekStart date = TimeValue ws /\ reference = TimeValue r
        /\ ws <= r < ws + msPerWeek.
Proof.
  destruct date as [| a].
  { rewrite isSameWeek_invalid_l.
    split; [discriminate | intros (ws & r & H & _); discriminate H]. }
  destruct reference as [| b].
  { unfold isSameWeek. rewrite getWeekStart_invalid, isSameDay_invalid_r.
    split; [discriminate | intros (ws & r & _ & H & _); discriminate H]. }
  rewrite isSameWeek_valid, Z.eqb_eq, getWeekStart_valid.
  pose proof (monday_of_range (Day a)) as [Hra Hma].
  pose proof (monday_of_range (Day b)) as [Hrb Hmb].
  split.
  - intros E. exists (MakeDate (monday_of (Day a)) 0), b.
    split; [reflexivity |]. split; [reflexivity |].
    rewrite E. clear E Hra Hma Hmb. revert Hrb.
    generalize (monday_of (Day b)). intros k Hrb.
    unfold msPerWeek, MakeDate, Day in *. unfold msPerDay in *.
    Z.div_mod_to_equations. lia.
  - intros (ws & r & [= <-] & [= <-] & Hr). symmetry.
    apply monday_of_unique; [| exact Hma].
    clear Hrb Hmb Hma. revert Hra Hr.
    generalize (monday_of (Day a)). intros k Hra Hr.
    unfold msPerWeek, MakeDate, Day in *. unfold msPerDay in *.
    Z.div_mod_to_equations. lia.
Qed.

Lemma isSameWeek_iff_within_week_witness :
  isSameWeek (Date_parse "2024-01-03T10:00:00.000Z")
             (Date_parse "2024-01-07T23:59:59.999Z") = true.
Proof.
  apply (proj2 (isSameWeek_iff_within_week _ _)).
  exists 1704067200000, 1704671999999.
  split; [reflexivity |]. split; [reflexivity |]. unfold msPerWeek, msPerDay. lia.
Defined.

(** ** Leveling *)

(** X5. For xp >= 0 the progress within the level is at least 0 and less
    than what the level requires, which is always 100. *)
Theorem getXPProgress_within_level (points : Z) :
  0 <= points ->
  required (getXPProgress points) = 100
  /\ 0 <= current (getXPProgress points) < required (getXPProgress points).
Proof.
  intros H. unfold getXPProgress, getXPForLevel, calculateLevel.
  cbn [current required].
  destruct (Z.ltb_spec points 100); [lia |].
  Z.div_mod_to_equations. lia.
Qed.

Lemma getXPProgress_within_level_witness :
  required (getXPProgress 250) = 100
  /\ 0 <= current (getXPProgress 250) < required (getXPProgress 250).
Proof. apply (getXPProgress_within_level 250). lia. Defined.

(** X6. Level [n >= 1] is reached exactly from [100 * n] xp on; the level
    never decreases when the xp grows, and is 0 for every xp below 100,
    negative xp included. *)
Theorem calculateLevel_thresholds :
  (forall n points, 1 <= n -> (n <= calculateLevel points <-> 100 * n <= points))
  /\ (forall p1 p2, p1 <= p2 -> calculateLevel p1 <= calculateLevel p2)
  /\ (forall points, points < 100 -> calculateLevel points = 0).
Proof.
  unfold calculateLevel. split; [| split].
  - intros n points Hn.
    destruct (Z.ltb_spec points 100); [lia |]. Z.div_mod_to_equations. lia.
  - intros p1 p2 H. destruct (Z.ltb_spec p1 100), (Z.ltb_spec p2 100);
      try lia; Z.div_mod_to_equations; lia.
  - intros points H. destruct (Z.ltb_spec points 100); lia.
Qed.

Lemma calculateLevel_thresholds_witness :
  (3 <= calculateLevel 300 <-> 100 * 3 <= 300)
  /\ calculateLevel 150 <= calculateLevel 420
  /\ calculateLevel (-5) = 0.
Proof.
  split; [| split].
  - apply (proj1 calculateLevel_thresholds 3 300). lia.
  - apply (proj1 (proj2 calculateLevel_thresholds) 150 420). lia.
  - apply (proj2 (proj2 calculateLevel_thresholds) (-5)). lia.
Defined.

(** ** Unlocks and xp *)

Lemma run_keeps (P : GamificationState -> Prop) :
  (forall m s, is_ResetState m = false -> P s -> P (after (perform m) s)) ->
  forall ms s, no_reset ms -> P s -> P (run ms s).
Proof.
  intros Hstep ms. induction ms as [| m ms IH]; intros s Hms Hs; [exact Hs |].
  inversion Hms as [| ? ? Hm Hms']; subst.
  change (run (m :: ms) s) with (run ms (after (perform m) s)).
  apply IH; [exact Hms' | apply Hstep; assumption].
Qed.

(** The unlock evaluator sets a flag when the level has reached its
    threshold, never clears one and leaves the rest of the unlock alone. *)
Lemma updateUnlocks_unlock (id : UnlockId) (u : Unlocks) (level : Z) :
  let u' := unlock id (updateUnlocks u level) in
  unl_unlocked u' = unl_unlocked (unlock id u) || (unlock_threshold id <=? level)
  /\ unl_id u' = unl_id (unlock id u)
  /\ unl_title u' = unl_title (unlock id u)
  /\ unl_description u' = unl_description (unlock id u)
  /\ unl_requiredLevel u' = unl_requiredLevel (unlock id u).
Proof.
  unfold updateUnlocks. rewrite !Z.geb_leb. destruct u as [u1 u2 u3].
  cbn [at_dark_mode at_themes at_advanced_stats].
  destruct (unl_unlocked u1) eqn:H1; cbn [negb andb at_dark_mode at_themes
    at_advanced_stats];
  destruct (3 <=? level) eqn:L1; cbn [negb andb at_dark_mode at_themes
    at_advanced_stats];
  destruct (unl_unlocked u2) eqn:H2; cbn [negb andb at_dark_mode at_themes
    at_advanced_stats];
  destruct (5 <=? level) eqn:L2; cbn [negb andb at_dark_mode at_themes
    at_advanced_stats];
  destruct (unl_unlocked u3) eqn:H3; cbn [negb andb at_dark_mode at_themes
    at_advanced_stats];
  destruct (7 <=? level) eqn:L3; cbn [negb andb at_dark_mode at_themes
    at_advanced_stats];
  destruct id; cbn [unlock unlock_threshold at_dark_mode at_themes
    at_advanced_stats unlock_it unl_unlocked unl_id unl_title unl_description
    unl_requiredLevel];
  rewrite ?H1, ?H2, ?H3, ?L1, ?L2, ?L3; repeat split.
Qed.

(** X7. In every state of the engine each unlock keeps the required level it
    starts with (3, 5 and 7), and the feature of every unlock whose required
    level the player's level has reached is unlocked. *)
Theorem level_reached_means_unlocked (s : GamificationState) (id : UnlockId) :
  reachable s ->
  unl_requiredLevel (unlock id (unlocks s)) = unlock_threshold id
  /\ (unl_requiredLevel (unlock id (unlocks s)) <= calculateLevel (xp s) ->
      isUnlocked s id = true).
Proof.
  intros Hr. revert id.
  apply (reachable_keeps
    (fun s => forall id,
       unl_requiredLevel (unlock id (unlocks s)) = unlock_threshold id
       /\ (unl_requiredLevel (unlock id (unlocks s)) <= calculateLevel (xp s) ->
           isUnlocked s id = true))); try exact Hr; clear s Hr.
  - intros amount s H id. unfold isUnlocked. cbn [addXP_fn unlocks xp].
    destruct (updateUnlocks_unlock id (unlocks s) (calculateLevel (xp s + amount)))
      as (-> & _ & _ & _ & ->).
    destruct (H id) as [-> _]. split; [reflexivity |].
    intros Hl. apply orb_true_iff. right. apply Z.leb_le, Hl.
  - intros d s H. exact H.
  - intros s H. exact H.
  - intros clock s H id. unfold isUnlocked.
    destruct (resetWeeklyQuests_fn_frame clock s) as (-> & _ & _ & _ & _ & _ & _ & _ & ->).
    apply H.
  - intros clock entry s H. exact H.
  - intros questId q s _ H. exact H.
  - intros clock entry s H id. unfold isUnlocked.
    cbn [registerEntry_fn unlocks xp].
    match goal with
    | |- context [updateUnlocks (unlocks s) ?l] =>
        destruct (updateUnlocks_unlock id (unlocks s) l) as (-> & _ & _ & _ & ->)
    end.
    destruct (H id) as [-> _]. split; [reflexivity |].
    intros Hl. apply orb_true_iff. right. apply Z.leb_le, Hl.
  - intros id. destruct id; cbn; split; (reflexivity || lia).
Qed.

Lemma level_reached_means_unlocked_witness :
  let s := run [AddXP 350] INITIAL_STATE in
  calculateLevel (xp s) = 3 /\ isUnlocked s dark_mode = true.
Proof.
  cbv zeta. split; [reflexivity |].
  apply (level_reached_means_unlocked (run [AddXP 350] INITIAL_STATE) dark_mode).
  - apply reachable_step, reachable_initial.
  - change (3 <= 3). lia.
Defined.

(** X8. Once a feature is unlocked, every sequence of calls without
    [resetState] leaves its unlock as it is, whatever becomes of the xp;
    [resetState] locks every feature again. *)
Theorem unlocked_feature_stays_unlocked :
  (forall (id : UnlockId) (ms : list Mutator) (s : GamificationState),
     isUnlocked s id = true ->
     no_reset ms ->
     unlock id (unlocks (run ms s)) = unlock id (unlocks s)
     /\ isUnlocked (run ms s) id = true)
  /\ (forall (id : UnlockId) (s : GamificationState),
       isUnlocked (after (perform ResetState) s) id = false).
Proof.
  split.
  - intros id ms s Hu Hms.
    enough (unlock id (unlocks (run ms s)) = unlock id (unlocks s)) as E
      by (split; [exact E | unfold isUnlocked; rewrite E; exact Hu]).
    apply (run_keeps (fun x => unlock id (unlocks x) = unlock id (unlocks s)));
      [| exact Hms | reflexivity].
    clear ms Hms. intros m s0 Hm H0.
    assert (Hu0 : unl_unlocked (unlock id (unlocks s0)) = true)
      by (rewrite H0; exact Hu).
    assert (Hfix : forall level,
              unlock id (updateUnlocks (unlocks s0) level)
              = unlock id (unlocks s0)).
    { intros level.
      destruct (updateUnlocks_unlock id (unlocks s0) level)
        as (E1 & E2 & E3 & E4 & E5).
      rewrite Hu0 in E1. cbn [orb] in E1. rewrite <- Hu0 in E1.
      destruct (unlock id (updateUnlocks (unlocks s0) level)),
        (unlock id (unlocks s0)). cbn in *. congruence. }
    rewrite <- H0.
    apply (perform_keeps
             (fun x => unlock id (unlocks x) = unlock id (unlocks s0)));
      try assumption; try reflexivity.
    + intros amount s1 H. cbn [addXP_fn unlocks].
      assert (Hu1 : unl_unlocked (unlock id (unlocks s1)) = true)
        by (rewrite H; exact Hu0).
      destruct (updateUnlocks_unlock id (unlocks s1) (calculateLevel (xp s1 + amount)))
        as (E1 & E2 & E3 & E4 & E5).
      rewrite Hu1 in E1. cbn [orb] in E1. rewrite <- Hu1 in E1. rewrite <- H.
      destruct (unlock id (updateUnlocks (unlocks s1) _)),
        (unlock id (unlocks s1)). cbn in *. congruence.
    + intros d s1 H. exact H.
    + intros s1 H. exact H.
    + intros clock s1 H.
      destruct (resetWeeklyQuests_fn_frame clock s1) as (_ & _ & _ & _ & _ & _ & _ & _ & ->).
      exact H.
    + intros clock entry s1 H. exact H.
    + intros questId q s1 _ H. exact H.
    + intros clock entry s1 H. cbn [registerEntry_fn unlocks].
      assert (Hu1 : unl_unlocked (unlock id (unlocks s1)) = true)
        by (rewrite H; exact Hu0).
      match goal with
      | |- context [updateUnlocks (unlocks s1) ?l] =>
          destruct (updateUnlocks_unlock id (unlocks s1) l)
            as (E1 & E2 & E3 & E4 & E5)
      end.
      rewrite Hu1 in E1. cbn [orb] in E1. rewrite <- Hu1 in E1. rewrite <- H.
      destruct (unlock id (updateUnlocks (unlocks s1) _)),
        (unlock id (unlocks s1)). cbn in *. congruence.
  - intros id s. destruct id; reflexivity.
Qed.

Lemma unlocked_feature_stays_unlocked_witness :
  let s := run [AddXP 300] INITIAL_STATE in
  isUnlocked (run [ResetStreak; RegisterEntry clock_2024_01_03 entry_2024_01_03] s)
    dark_mode = true.
Proof.
  cbv zeta.
  apply (proj1 unlocked_feature_stays_unlocked dark_mode).
  - reflexivity.
  - repeat constructor.
Defined.

Lemma calculateLevel_monotone (p1 p2 : Z) :
  p1 <= p2 -> calculateLevel p1 <= calculateLevel p2.
Proof.
  unfold calculateLevel. intros H.
  destruct (Z.ltb_spec p1 100), (Z.ltb_spec p2 100);
    try lia; Z.div_mod_to_equations; lia.
Qed.

Lemma Unlock_ext (u v : Unlock) :
  unl_unlocked u = unl_unlocked v -> unl_id u = unl_id v ->
  unl_title u = unl_title v -> unl_description u = unl_description v ->
  unl_requiredLevel u = unl_requiredLevel v -> u = v.
Proof. destruct u, v. cbn. congruence. Qed.

Lemma Unlocks_ext (u v : Unlocks) :
  (forall id, unlock id u = unlock id v) -> u = v.
Proof.
  intros H. destruct u, v.
  pose proof (H dark_mode). pose proof (H themes). pose proof (H advanced_stats).
  cbn in *. congruence.
Qed.

(** X9. [addXP] with an amount that is not positive leaves the whole store
    as it is, without a commit.  With a positive amount it commits once: the
    xp grows by the amount, the unlocks are re-evaluated at the new level,
    and no other field changes. *)
Theorem addXP_guarded (amount : Z) (st : Store) :
  (amount <= 0 -> exec (addXP amount) st = st)
  /\ (0 < amount ->
      let s := st_state st in
      let s' := st_state (exec (addXP amount) st) in
      exec (addXP amount) st = commit s' st
      /\ xp s' = xp s + amount
      /\ unlocks s' = updateUnlocks (unlocks s) (calculateLevel (xp s + amount))
      /\ totalEntries s' = totalEntries s
      /\ totalFocusMinutes s' = totalFocusMinutes s
      /\ mathTaggedEntries s' = mathTaggedEntries s
      /\ streak s' = streak s
      /\ lastEntryDate s' = lastEntryDate s
      /\ longestStreak s' = longestStreak s
      /\ achievements s' = achievements s
      /\ quests s' = quests s
      /\ weeklyEntriesCount s' = weeklyEntriesCount s
      /\ weeklyHighFocusDays s' = weeklyHighFocusDays s
      /\ weekStartDate s' = weekStartDate s).
Proof.
  unfold addXP, _addXP. split; intros H.
  - replace (amount <=? 0) with true by (symmetry; apply Z.leb_le; lia).
    reflexivity.
  - replace (amount <=? 0) with false by (symmetry; apply Z.leb_gt; lia).
    cbv zeta. repeat split.
Qed.

Lemma addXP_guarded_witness :
  exec (addXP (-20)) (store_of INITIAL_STATE) = store_of INITIAL_STATE
  /\ xp (st_state (exec (addXP 150) (store_of INITIAL_STATE))) = 150.
Proof.
  split.
  - apply (proj1 (addXP_guarded (-20) (store_of INITIAL_STATE))). lia.
  - apply (proj2 (addXP_guarded 150 (store_of INITIAL_STATE))). lia.
Defined.

Lemma updateUnlocks_twice (u : Unlocks) (l1 l2 : Z) :
  l1 <= l2 -> updateUnlocks (updateUnlocks u l1) l2 = updateUnlocks u l2.
Proof.
  intros H. apply Unlocks_ext. intros id.
  destruct (updateUnlocks_unlock id (updateUnlocks u l1) l2)
    as (A1 & A2 & A3 & A4 & A5).
  destruct (updateUnlocks_unlock id u l1) as (B1 & B2 & B3 & B4 & B5).
  destruct (updateUnlocks_unlock id u l2) as (C1 & C2 & C3 & C4 & C5).
  apply Unlock_ext; try congruence.
  rewrite A1, B1, C1.
  destruct (unl_unlocked (unlock id u)); [reflexivity |]. cbn [orb].
  destruct (Z.leb_spec (unlock_threshold id) l1),
    (Z.leb_spec (unlock_threshold id) l2); try reflexivity; lia.
Qed.

(** X10. Two awards of positive whole amounts of xp in a row leave the state
    that the award of their sum leaves, as long as the xp before, the sum of
    the two amounts and the xp after are safe integers, which the runtime's
    numbers add exactly. *)
Theorem addXP_twice_is_addXP_sum (a b : Z) (s : GamificationState) :
  0 < a -> 0 < b ->
  - MAX_SAFE_INTEGER <= xp s ->
  a + b <= MAX_SAFE_INTEGER ->
  xp s + a + b <= MAX_SAFE_INTEGER ->
  after (addXP b) (after (addXP a) s) = after (addXP (a + b)) s.
Proof.
  intros Ha Hb _ _ _. rewrite !after_addXP.
  replace (a <=? 0) with false by (symmetry; apply Z.leb_gt; lia).
  replace (b <=? 0) with false by (symmetry; apply Z.leb_gt; lia).
  replace (a + b <=? 0) with false by (symmetry; apply Z.leb_gt; lia).
  unfold addXP_fn. cbn [xp totalEntries totalFocusMinutes mathTaggedEntries
    streak lastEntryDate longestStreak achievements unlocks quests
    weeklyEntriesCount weeklyHighFocusDays weekStartDate].
  rewrite updateUnlocks_twice, Z.add_assoc; [reflexivity |].
  apply calculateLevel_monotone. lia.
Qed.

Lemma addXP_twice_is_addXP_sum_witness :
  after (addXP 250) (after (addXP 100) INITIAL_STATE)
  = after (addXP 350) INITIAL_STATE.
Proof.
  apply (addXP_twice_is_addXP_sum 100 250 INITIAL_STATE);
    unfold MAX_SAFE_INTEGER; cbn [xp INITIAL_STATE]; lia.
Defined.

(** ** Achievements and counters *)

(** What the evaluator makes of an achievement that is still locked. *)
Lemma updateAchievements_locked (id : AchievementId) (clock : Date)
    (a : Achievements) (c : Counters) :
  ach_unlocked (achievement id a) = false ->
  let a' := achievement id (updateAchievements clock a c) in
  ach_progress a' = counter_of id c
  /\ ach_unlocked a' = (achievement_threshold id <=? counter_of id c)
  /\ ach_unlockedAt a'
     = (if achievement_threshold id <=? counter_of id c
        then Some (toISOString clock) else None)
  /\ ach_id a' = ach_id (achievement id a)
  /\ ach_title a' = ach_title (achievement id a)
  /\ ach_description a' = ach_description (achievement id a)
  /\ ach_requirement a' = ach_requirement (achievement id a).
Proof.
  intros H. unfold updateAchievements. rewrite !Z.geb_leb.
  generalize (toISOString clock). intros now.
  destruct a as [a1 a2 a3 a4].
  cbn [at_streak_warrior at_math_mastery at_deep_focus at_consistency_king].
  destruct (ach_unlocked a1) eqn:H1;
    cbn [negb at_streak_warrior at_math_mastery at_deep_focus
         at_consistency_king];
    (destruct (ach_unlocked a2) eqn:H2;
     cbn [negb at_streak_warrior at_math_mastery at_deep_focus
          at_consistency_king];
     (destruct (ach_unlocked a3) eqn:H3;
      cbn [negb at_streak_warrior at_math_mastery at_deep_focus
           at_consistency_king];
      (destruct (ach_unlocked a4) eqn:H4;
       cbn [negb at_streak_warrior at_math_mastery at_deep_focus
            at_consistency_king];
       destruct id;
       cbn [achievement at_streak_warrior at_math_mastery at_deep_focus
            at_consistency_king] in H |- *;
       try congruence;
       cbn [ach_progress ach_unlocked ach_unlockedAt ach_id ach_title
            ach_description ach_requirement counter_of achievement_threshold];
       repeat split))).
Qed.

(** X11. In every state of the engine: [consistency-king] is held exactly
    when there are at least 20 entries, and [math-mastery] exactly when
    there are at least 10 math-tagged entries; [deep-focus] is held whenever
    the focus minutes total at least 240; and [streak-warrior] is held only
    if the longest streak is at least 7. *)
Theorem achievements_follow_counters (s : GamificationState) :
  reachable s ->
  (hasAchievement s consistency_king = true <-> 20 <= totalEntries s)
  /\ (hasAchievement s math_mastery = true <-> 10 <= mathTaggedEntries s)
  /\ (240 <= totalFocusMinutes s -> hasAchievement s deep_focus = true)
  /\ (hasAchievement s streak_warrior = true -> 7 <= longestStreak s).
Proof.
  intros Hr. pattern s. revert s Hr.
  apply reachable_keeps; unfold hasAchievement.
  - intros amount s H. exact H.
  - intros d s (H1 & H2 & H3 & H4).
    cbn [updateStreak_fn achievements totalEntries mathTaggedEntries
         totalFocusMinutes longestStreak].
    repeat split; try apply H1; try apply H2; try exact H3. intros U. apply H4 in U. lia.
  - intros s H. exact H.
  - intros clock s H.
    destruct (resetWeeklyQuests_fn_frame clock s)
      as (_ & -> & -> & -> & _ & _ & -> & -> & _).
    exact H.
  - intros clock entry s H. exact H.
  - intros questId q s _ H. exact H.
  - intros clock entry s (H1 & H2 & H3 & H4).
    set (s' := registerEntry_fn clock entry s).
    pose (cs0 := {| c_streak := streak s';
                    c_mathTaggedEntries := mathTaggedEntries s';
                    c_totalFocusMinutes := totalFocusMinutes s';
                    c_totalEntries := totalEntries s' |}).
    assert (Ea : achievements s'
                 = updateAchievements (Date_now clock) (achievements s) cs0)
      by reflexivity.
    assert (Hgrow_e : totalEntries s <= totalEntries s')
      by (unfold s', registerEntry_fn; cbn [totalEntries];
          destruct (isNewDay _); lia).
    assert (Hgrow_m : mathTaggedEntries s <= mathTaggedEntries s')
      by (unfold s', registerEntry_fn; cbn [mathTaggedEntries];
          destruct (_ && _); lia).
    assert (Hlong : longestStreak s <= longestStreak s'
                    /\ streak s' <= longestStreak s')
      by (unfold s', registerEntry_fn; cbn [longestStreak streak]; lia).
    rewrite Ea.
    assert (Hcase : forall id,
      (ach_unlocked (achievement id (achievements s)) = true
       /\ ach_unlocked (achievement id
            (updateAchievements (Date_now clock) (achievements s) cs0)) = true)
      \/ (ach_unlocked (achievement id (achievements s)) = false
          /\ ach_unlocked (achievement id
               (updateAchievements (Date_now clock) (achievements s) cs0))
             = (achievement_threshold id <=? counter_of id cs0))).
    { intros id. destruct (ach_unlocked (achievement id (achievements s))) eqn:U.
      - left. split; [reflexivity |]. rewrite updateAchievements_frozen; assumption.
      - right. split; [reflexivity |].
        apply (updateAchievements_locked id (Date_now clock) (achievements s) cs0 U). }
    clear Ea. clearbody s'.
    split; [| split; [| split]].
    + destruct (Hcase consistency_king) as [[U ->] | [U ->]].
      * apply H1 in U. split; [lia | reflexivity].
      * cbn [achievement_threshold counter_of cs0 c_totalEntries].
        rewrite Z.leb_le. reflexivity.
    + destruct (Hcase math_mastery) as [[U ->] | [U ->]].
      * apply H2 in U. split; [lia | reflexivity].
      * cbn [achievement_threshold counter_of cs0 c_mathTaggedEntries].
        rewrite Z.leb_le. reflexivity.
    + intros Hf. destruct (Hcase deep_focus) as [[U ->] | [U ->]];
        [reflexivity |].
      cbn [achievement_threshold counter_of cs0 c_totalFocusMinutes].
      apply Z.leb_le, Hf.
    + destruct (Hcase streak_warrior) as [[U ->] | [U ->]].
      * intros _. apply H4 in U. lia.
      * cbn [achievement_threshold counter_of cs0 c_streak].
        rewrite Z.leb_le. lia.
  - cbn. repeat split; try lia; discriminate.
Qed.

Lemma achievements_follow_counters_witness :
  let s := run [RegisterEntry clock_2024_01_04 entry_2024_01_04] INITIAL_STATE in
  (hasAchievement s consistency_king = true <-> 20 <= totalEntries s)
  /\ (hasAchievement s math_mastery = true <-> 10 <= mathTaggedEntries s)
  /\ (240 <= totalFocusMinutes s -> hasAchievement s deep_focus = true)
  /\ (hasAchievement s streak_warrior = true -> 7 <= longestStreak s).
Proof.
  cbv zeta. apply achievements_follow_counters.
  apply reachable_step, reachable_initial.
Defined.

(** X12. In every state of the engine every achievement sits under its own
    id, keeps the requirement it starts with (the threshold the evaluator
    uses), is unlocked exactly when its progress has reached its
    requirement, and carries a time of unlocking exactly when unlocked. *)
Theorem achievements_well_formed (s : GamificationState) (id : AchievementId) :
  reachable s ->
  let a := achievement id (achievements s) in
  ach_id a = id
  /\ ach_requirement a = achievement_threshold id
  /\ (ach_unlocked a = true <-> ach_requirement a <= ach_progress a)
  /\ (ach_unlocked a = true <-> ach_unlockedAt a <> None).
Proof.
  intros Hr. revert id. pattern s. revert s Hr.
  apply reachable_keeps.
  - intros amount s H. exact H.
  - intros d s H. exact H.
  - intros s H. exact H.
  - intros clock s H id.
    destruct (resetWeeklyQuests_fn_frame clock s)
      as (_ & _ & _ & _ & _ & _ & _ & -> & _).
    apply H.
  - intros clock entry s H. exact H.
  - intros questId q s _ H. exact H.
  - intros clock entry s H id. cbn [registerEntry_fn achievements].
    match goal with
    | |- context [updateAchievements ?c ?a ?cs] =>
        generalize cs; generalize c
    end.
    intros cl cs. specialize (H id). cbv zeta in H.
    destruct H as (Hid & Hreq & Hp & Ht).
    destruct (ach_unlocked (achievement id (achievements s))) eqn:U.
    + rewrite updateAchievements_frozen by exact U. rewrite U.
      repeat split; try assumption; try apply Hp; try apply Ht.
    + destruct (updateAchievements_locked id cl (achievements s) cs U)
        as (E1 & E2 & E3 & E4 & _ & _ & E7).
      cbv zeta. rewrite E1, E2, E3, E4, E7, Hid, Hreq.
      split; [reflexivity |]. split; [reflexivity |].
      destruct (Z.leb_spec (achievement_threshold id) (counter_of id cs)).
      * repeat split; try lia; discriminate.
      * split; split; try discriminate; try lia. intros N. exfalso. apply N. reflexivity.
  - intros id. destruct id; cbn; repeat split; try lia; try discriminate;
      intros N; exfalso; apply N; reflexivity.
Qed.

Lemma achievements_well_formed_witness :
  let s := run [RegisterEntry clock_2024_01_04 entry_2024_01_04] INITIAL_STATE in
  let a := achievement deep_focus (achievements s) in
  ach_id a = deep_focus
  /\ ach_requirement a = 240
  /\ (ach_unlocked a = true <-> ach_requirement a <= ach_progress a)
  /\ (ach_unlocked a = true <-> ach_unlockedAt a <> None).
Proof.
  cbv zeta.
  apply (achievements_well_formed
           (run [RegisterEntry clock_2024_01_04 entry_2024_01_04] INITIAL_STATE)
           deep_focus).
  apply reachable_step, reachable_initial.
Defined.

(** X13. In every state of the engine the math-tagged entries are counted
    among the entries, and the high-focus days of the week among the entries
    of the week; none of the four counts is negative. *)
Theorem counters_are_nested (s : GamificationState) :
  reachable s ->
  0 <= mathTaggedEntries s <= totalEntries s
  /\ 0 <= weeklyHighFocusDays s <= weeklyEntriesCount s.
Proof.
  intros Hr. pattern s. revert s Hr. apply reachable_keeps.
  - intros amount s H. exact H.
  - intros d s H. exact H.
  - intros s H. exact H.
  - intros clock s H. unfold resetWeeklyQuests_fn.
    destruct (truthy_string _ && negb _);
      cbn [mathTaggedEntries totalEntries weeklyHighFocusDays
           weeklyEntriesCount]; lia.
  - intros clock entry s H. unfold updateQuests_fn.
    cbn [mathTaggedEntries totalEntries weeklyHighFocusDays weeklyEntriesCount].
    destruct (_ && _); [destruct (_ >=? _) |]; lia.
  - intros questId q s _ H. exact H.
  - intros clock entry s H. unfold registerEntry_fn.
    cbn [mathTaggedEntries totalEntries weeklyHighFocusDays weeklyEntriesCount].
    destruct (isNewDay _); rewrite ?andb_true_r, ?andb_false_r;
      [destruct (hasTag entry "math") |]; lia.
  - cbn. lia.
Qed.

Lemma counters_are_nested_witness :
  let s := run [UpdateQuestsOnEntry clock_2024_01_04 entry_2024_01_04;
                RegisterEntry clock_2024_01_04 entry_2024_01_04] INITIAL_STATE in
  0 <= mathTaggedEntries s <= totalEntries s
  /\ 0 <= weeklyHighFocusDays s <= weeklyEntriesCount s.
Proof.
  cbv zeta. apply counters_are_nested.
  apply reachable_step, reachable_step, reachable_initial.
Defined.

(** ** The weekly reset check *)

Lemma digit_val_digit (n : Z) : digit_val (digit n) = Some (n mod 10).
Proof.
  unfold digit_val, digit.
  assert (H : 0 <= n mod 10 < 10) by (apply Z.mod_pos_bound; lia).
  rewrite N_ascii_embedding by lia.
  replace (Z.of_N (48 + Z.to_N (n mod 10))) with (48 + n mod 10) by lia.
  replace (48 <=? 48 + n mod 10) with true by (symmetry; apply Z.leb_le; lia).
  replace (48 + n mod 10 <=? 57) with true by (symmetry; apply Z.leb_le; lia).
  cbn [andb]. f_equal. lia.
Qed.

(** The day of the month is within the month. *)
Lemma civil_day_in_month (z y m d : Z) :
  civil_from_days z = (y, m, d) ->
  d <= days_from_civil y (m + 1) 1 - days_from_civil y m 1.
Proof.
  intros H. pose proof (civil_facts z y m d H) as (Hm & Hd & Hz).
  rewrite days_from_civil_day in Hz.
  enough (z < days_from_civil y (m + 1) 1) by lia.
  clear Hz. revert H.
  unfold civil_from_days.
  set (z' := z + 719468).
  set (era := z' / 146097).
  set (doe := z' mod 146097).
  set (yoe := (doe - doe / 1460 + doe / 36524 - doe / 146096) / 365).
  set (doy := doe - (365 * yoe + yoe / 4 - yoe / 100)).
  set (mp := (5 * doy + 2) / 153).
  intros [= <- <- <-].
  assert (Hdoe : 0 <= doe < 146097) by (apply Z.mod_pos_bound; lia).
  destruct (yoe_bounds doe Hdoe) as [Hyoe Hdoy].
  fold yoe in Hyoe, Hdoy. fold doy in Hdoy.
  assert (Hnext : yoe < 399 -> doe < 365 * (yoe + 1) + (yoe + 1) / 4 - (yoe + 1) / 100).
  { unfold yoe. Z.div_mod_to_equations. lia. }
  assert (Hz : z' = era * 146097 + doe)
    by (unfold era, doe; pose proof (Z.div_mod z' 146097); lia).
  assert (Hmp : 0 <= mp <= 11) by (unfold mp; Z.div_mod_to_equations; lia).
  assert (Hmp' : 5 * doy + 2 < 153 * (mp + 1)) by (unfold mp; Z.div_mod_to_equations; lia).
  assert (Hdoy' : doy = doe - (365 * yoe + yoe / 4 - yoe / 100)) by reflexivity.
  assert (Hz' : z' = z + 719468) by reflexivity.
  clearbody mp doy yoe doe era z'.
  unfold days_from_civil.
  destruct (Z.ltb_spec mp 10) as [Hlt | Hge].
  - replace (mp + 2 + 1 <=? 1) with false by (symmetry; apply Z.leb_gt; lia).
    replace (mp + 2 <=? 1) with false by (symmetry; apply Z.leb_gt; lia).
    rewrite Z.add_0_r.
    replace ((yoe + era * 400) / 400) with era by (Z.div_mod_to_equations; lia).
    replace ((yoe + era * 400) mod 400) with yoe by (Z.div_mod_to_equations; lia).
    clear Hnext. Z.div_mod_to_equations. lia.
  - replace (mp - 10 <=? 1) with true by (symmetry; apply Z.leb_le; lia).
    destruct (Z.eq_dec mp 10) as [-> | Hne].
    + replace (10 - 10 + 1 <=? 1) with true by reflexivity.
      replace ((yoe + era * 400 + 1 - 1) / 400) with era by (Z.div_mod_to_equations; lia).
      replace ((yoe + era * 400 + 1 - 1) mod 400) with yoe by (Z.div_mod_to_equations; lia).
      clear Hnext. Z.div_mod_to_equations. lia.
    + assert (mp = 11) by lia. subst mp.
      replace (11 - 10 + 1 <=? 1) with false by reflexivity.
      destruct (Z.eq_dec yoe 399) as [-> | Hy].
      * replace ((399 + era * 400 + 1) / 400) with (era + 1) by (Z.div_mod_to_equations; lia).
        replace ((399 + era * 400 + 1) mod 400) with 0 by (Z.div_mod_to_equations; lia).
        clear Hnext. Z.div_mod_to_equations. lia.
      * replace ((yoe + era * 400 + 1) / 400) with era by (Z.div_mod_to_equations; lia).
        replace ((yoe + era * 400 + 1) mod 400) with (yoe + 1) by (Z.div_mod_to_equations; lia).
        specialize (Hnext ltac:(lia)).
        Z.div_mod_to_equations. lia.
Qed.

Lemma two_digits (n : Z) :
  0 <= n <= 99 -> 10 * (10 * 0 + (n / 10) mod 10) + n mod 10 = n.
Proof. intros H. Z.div_mod_to_equations. lia. Qed.

Lemma three_digits (n : Z) :
  0 <= n <= 999 ->
  10 * (10 * (10 * 0 + (n / 10 / 10) mod 10) + (n / 10) mod 10) + n mod 10 = n.
Proof. intros H. Z.div_mod_to_equations. lia. Qed.

Lemma four_digits (n : Z) :
  0 <= n <= 9999 ->
  10 * (10 * (10 * (10 * 0 + (n / 10 / 10 / 10) mod 10) + (n / 10 / 10) mod 10)
        + (n / 10) mod 10) + n mod 10 = n.
Proof. intros H. Z.div_mod_to_equations. lia. Qed.

(** Reading back what [toISOString] writes gives the date again. *)
Lemma Date_parse_toISOString (t : Z) :
  0 <= YearFromTime t <= 9999 ->
  Date_parse (toISOString (TimeValue t)) = TimeValue t.
Proof.
  intros Hy. unfold toISOString, format_year.
  replace ((0 <=? YearFromTime t) && (YearFromTime t <=? 9999)) with true
    by (symmetry; apply andb_true_intro; split; apply Z.leb_le; lia).
  pose proof (TimeWithinDay_range t) as Hw.
  assert (Ht : t = MakeDate (Day t) (TimeWithinDay t)).
  { unfold MakeDate, Day, TimeWithinDay, msPerDay. Z.div_mod_to_equations. lia. }
  revert Hy. unfold YearFromTime, MonthFromTime, DateFromTime.
  destruct (civil_from_days (Day t)) as [[y m] d] eqn:Hc. cbn [fst snd]. intros Hy.
  pose proof (civil_day_in_month _ _ _ _ Hc) as Hdim.
  apply civil_facts in Hc. destruct Hc as (Hm & Hd & Hz).
  set (w := TimeWithinDay t) in *.
  cbv [pad String.append].
  unfold Date_parse. cbv [String.length].
  unfold parse_day, parse_time, field, sep.
  cbv [substring String.length Nat.eqb digits_val String.eqb Ascii.eqb Bool.eqb].
  rewrite !digit_val_digit. cbv beta iota.
  unfold msPerDay in Hw.
  rewrite (four_digits y), (two_digits (m + 1)), (two_digits d),
    (two_digits (w / 3600000)), (two_digits (w / 60000 mod 60)),
    (two_digits (w / 1000 mod 60)), (three_digits (w mod 1000))
    by (Z.div_mod_to_equations; lia).
  replace (m + 1 - 1) with m by lia.
  replace (1 <=? m + 1) with true by (symmetry; apply Z.leb_le; lia).
  replace (m + 1 <=? 12) with true by (symmetry; apply Z.leb_le; lia).
  replace (1 <=? d) with true by (symmetry; apply Z.leb_le; lia).
  replace (d <=? days_from_civil y (m + 1) 1 - days_from_civil y m 1) with true
    by (symmetry; apply Z.leb_le; lia).
  replace (w / 3600000 <=? 23) with true
    by (symmetry; apply Z.leb_le; Z.div_mod_to_equations; lia).
  replace (w / 60000 mod 60 <=? 59) with true
    by (symmetry; apply Z.leb_le; Z.div_mod_to_equations; lia).
  replace (w / 1000 mod 60 <=? 59) with true
    by (symmetry; apply Z.leb_le; Z.div_mod_to_equations; lia).
  cbv [andb]. rewrite Hz. f_equal. rewrite Ht at 2. f_equal.
  Z.div_mod_to_equations. lia.
Qed.


Lemma year_in_range (z : Z) :
  -719528 <= z < 2932897 -> 0 <= fst (fst (civil_from_days z)) <= 9999.
Proof.
  intros Hz. unfold civil_from_days. cbn [fst snd].
  set (z' := z + 719468).
  set (era := z' / 146097).
  set (doe := z' mod 146097).
  set (yoe := (doe - doe / 1460 + doe / 36524 - doe / 146096) / 365).
  set (doy := doe - (365 * yoe + yoe / 4 - yoe / 100)).
  set (mp := (5 * doy + 2) / 153).
  assert (Hdoe : 0 <= doe < 146097) by (apply Z.mod_pos_bound; lia).
  destruct (yoe_bounds doe Hdoe) as [Hyoe Hdoy].
  fold yoe in Hyoe, Hdoy. fold doy in Hdoy.
  assert (Hz' : z' = era * 146097 + doe)
    by (unfold era, doe; pose proof (Z.div_mod z' 146097); lia).
  assert (Hera : -1 <= era <= 24) by (unfold z' in *; lia).
  assert (Hlow : era = -1 -> yoe = 399 /\ 10 <= mp).
  { intros E. assert (146037 <= doe) by (unfold z' in *; lia).
    unfold mp, doy, yoe. Z.div_mod_to_equations. lia. }
  assert (Hhigh : era = 24 -> yoe = 399 -> mp < 10).
  { intros E Y. assert (doe < 146037) by (unfold z' in *; lia).
    unfold mp, doy. rewrite Y. Z.div_mod_to_equations. lia. }
  assert (Hmp : 0 <= mp <= 11) by (unfold mp; Z.div_mod_to_equations; lia).
  clearbody mp doy yoe doe era z'.
  destruct (Z.ltb_spec mp 10).
  - replace (mp + 2 <=? 1) with false by (symmetry; apply Z.leb_gt; lia). lia.
  - replace (mp - 10 <=? 1) with true by (symmetry; apply Z.leb_le; lia).
    assert (era = 24 -> yoe <> 399) by (intros E Y; specialize (Hhigh E Y); lia).
    lia.
Qed.

Lemma isSameWeek_iff_same_iso_week (d1 d2 : Date) :
  isSameWeek d1 d2 = true <-> same_iso_week d1 d2.
Proof.
  destruct d1 as [| a].
  { rewrite isSameWeek_invalid_l.
    split; [discriminate | intros (n1 & n2 & H & _); discriminate H]. }
  destruct d2 as [| b].
  { unfold isSameWeek. rewrite getWeekStart_invalid, isSameDay_invalid_r.
    split; [discriminate | intros (n1 & n2 & _ & H & _); discriminate H]. }
  rewrite isSameWeek_valid, Z.eqb_eq. split.
  - intros E. exists (Day a), (Day b). repeat split. exact E.
  - intros (n1 & n2 & [= <-] & [= <-] & E). exact E.
Qed.

(** The week start the check stores reads back as the Monday midnight of the
    clock's week. *)
Lemma weekStart_reads_back (clock : Z) :
  clock_in_iso_range clock ->
  Date_parse (toISOString (getWeekStart (Date_now clock)))
  = TimeValue (MakeDate (monday_of (Day clock)) 0).
Proof.
  intros Hc. unfold Date_now. rewrite getWeekStart_valid.
  apply Date_parse_toISOString. unfold YearFromTime.
  rewrite Day_MakeDate by (unfold msPerDay; lia).
  apply year_in_range.
  pose proof (monday_of_range (Day clock)) as [Hr _].
  unfold clock_in_iso_range in Hc. revert Hr.
  generalize (monday_of (Day clock)). intros k Hr.
  unfold Day in *. unfold msPerDay in *. Z.div_mod_to_equations. lia.
Qed.

(** X14. Whatever the state, the weekly reset check leaves the xp, the
    totals, the streak fields, the achievements and the unlocks alone, and
    stores the start of the clock's week; for a clock between 1970 and the
    year 9999 the stored string reads back as the midnight that starts the
    Monday of the clock's week. *)
Theorem resetWeeklyQuests_stamps_week (clock : Z) (s : GamificationState) :
  let s' := after (resetWeeklyQuests clock) s in
  xp s' = xp s /\ totalEntries s' = totalEntries s
  /\ totalFocusMinutes s' = totalFocusMinutes s
  /\ mathTaggedEntries s' = mathTaggedEntries s
  /\ streak s' = streak s /\ lastEntryDate s' = lastEntryDate s
  /\ longestStreak s' = longestStreak s
  /\ achievements s' = achievements s /\ unlocks s' = unlocks s
  /\ weekStartDate s' = Some (toISOString (getWeekStart (Date_now clock)))
  /\ (clock_in_iso_range clock ->
      exists w ws,
        weekStartDate s' = Some w /\ Date_parse w = TimeValue ws
        /\ getDay (TimeValue ws) = Some 1 /\ TimeWithinDay ws = 0
        /\ ws <= clock < ws + msPerWeek).
Proof.
  cbv zeta. change (after (resetWeeklyQuests clock) s)
    with (resetWeeklyQuests_fn clock s).
  pose proof (resetWeeklyQuests_fn_frame clock s) as F. cbv zeta in F.
  destruct F as (F1 & F2 & F3 & F4 & F5 & F6 & F7 & F8 & F9).
  assert (Hw : weekStartDate (resetWeeklyQuests_fn clock s)
               = Some (toISOString (getWeekStart (Date_now clock)))).
  { unfold resetWeeklyQuests_fn. destruct (truthy_string _ && negb _); reflexivity. }
  repeat (split; [assumption |]).
  intros Hc. destruct (getWeekStart_is_monday_midnight_aux clock)
    as (ws & E & Hd & Ht & Hr).
  exists (toISOString (getWeekStart (Date_now clock))), ws.
  split; [exact Hw |]. split; [| repeat split; assumption || apply Hr].
  rewrite weekStart_reads_back by exact Hc.
  unfold Date_now in E. rewrite getWeekStart_valid in E. exact E.
Qed.

Lemma resetWeeklyQuests_stamps_week_witness :
  exists w ws,
    weekStartDate (after (resetWeeklyQuests clock_2024_01_03) INITIAL_STATE) = Some w
    /\ Date_parse w = TimeValue ws
    /\ getDay (TimeValue ws) = Some 1 /\ TimeWithinDay ws = 0
    /\ ws <= clock_2024_01_03 < ws + msPerWeek.
Proof.
  apply (resetWeeklyQuests_stamps_week clock_2024_01_03 INITIAL_STATE).
  unfold clock_in_iso_range, clock_2024_01_03. lia.
Defined.

Lemma resetWeeklyQuests_fn_kept (clock : Z) (s : GamificationState) :
  truthy_string (weekStartDate s)
  && negb (isSameWeek (Date_parse (default "" (weekStartDate s))) (Date_now clock))
  = false ->
  quests (resetWeeklyQuests_fn clock s) = quests s
  /\ weeklyEntriesCount (resetWeeklyQuests_fn clock s) = weeklyEntriesCount s
  /\ weeklyHighFocusDays (resetWeeklyQuests_fn clock s) = weeklyHighFocusDays s.
Proof. intros H. unfold resetWeeklyQuests_fn. rewrite H. repeat split. Qed.

(** X15. When no week start is stored yet (null or empty), or the stored one
    falls in the clock's week, the weekly reset check leaves the quests and
    the weekly counters as they are. *)
Theorem resetWeeklyQuests_keeps_current_week (clock : Z) (s : GamificationState) :
  truthy_string (weekStartDate s) = false
  \/ (exists w, weekStartDate s = Some w
                /\ same_iso_week (Date_parse w) (Date_now clock)) ->
  let s' := after (resetWeeklyQuests clock) s in
  quests s' = quests s
  /\ weeklyEntriesCount s' = weeklyEntriesCount s
  /\ weeklyHighFocusDays s' = weeklyHighFocusDays s.
Proof.
  intros H. apply resetWeeklyQuests_fn_kept.
  destruct H as [-> | (w & -> & Hw)]; [reflexivity |].
  cbn [from_option id]. apply isSameWeek_iff_same_iso_week in Hw.
  rewrite Hw. apply andb_false_r.
Qed.

Lemma resetWeeklyQuests_keeps_current_week_witness :
  let s := after (resetWeeklyQuests clock_2024_01_03)
             (after (updateQuestsOnEntry clock_2024_01_03 entry_2024_01_03)
                INITIAL_STATE) in
  let s' := after (resetWeeklyQuests clock_2024_01_04) s in
  quests s' = quests s
  /\ weeklyEntriesCount s' = weeklyEntriesCount s
  /\ weeklyHighFocusDays s' = weeklyHighFocusDays s.
Proof.
  cbv zeta. apply resetWeeklyQuests_keeps_current_week.
  right. exists "2024-01-01T00:00:00.000Z". split; [vm_compute; reflexivity |].
  exists 19723, 19726. repeat split.
Defined.

(** X16. When the stored week start reads as a date that is not in the
    clock's week, the check sets both weekly counters to 0; every quest that resets weekly gets progress 0, is neither
    completed nor claimed and is stamped with the new week start, all else in
    it kept; every other quest is left as it is; no quest appears or
    disappears. *)
Theorem resetWeeklyQuests_resets_on_new_week (clock : Z) (s : GamificationState)
    (w : string) :
  weekStartDate s = Some w ->
  (exists t : Z, Date_parse w = TimeValue t) ->
  ~ same_iso_week (Date_parse w) (Date_now clock) ->
  let s' := after (resetWeeklyQuests clock) s in
  weeklyEntriesCount s' = 0
  /\ weeklyHighFocusDays s' = 0
  /\ forall questId : string,
       match quests s !! questId with
       | None => quests s' !! questId = None
       | Some q =>
           exists q', quests s' !! questId = Some q'
             /\ quest_static q' = quest_static q
             /\ (truthy_flag (q_resetWeekly q) = true ->
                 q_progress q' = 0 /\ q_completed q' = false
                 /\ q_claimed q' = false
                 /\ q_weekStarted q'
                    = Some (toISOString (getWeekStart (Date_now clock))))
             /\ (truthy_flag (q_resetWeekly q) = false -> q' = q)
       end.
Proof.
  intros Hw (tw & Hp) Hweek. cbv zeta.
  change (after (resetWeeklyQuests clock) s) with (resetWeeklyQuests_fn clock s).
  unfold resetWeeklyQuests_fn. rewrite Hw. cbn [from_option id].
  rewrite (truthy_string_parse w tw Hp).
  replace (isSameWeek (Date_parse w) (Date_now clock)) with false.
  2: { destruct (isSameWeek (Date_parse w) (Date_now clock)) eqn:E;
       [| reflexivity].
       exfalso. apply Hweek, isSameWeek_iff_same_iso_week, E. }
  cbn [andb negb weeklyEntriesCount weeklyHighFocusDays quests].
  generalize (toISOString (getWeekStart (Date_now clock))). intros weekStart.
  split; [reflexivity |]. split; [reflexivity |].
  intros questId. rewrite lookup_fmap.
  destruct (quests s !! questId) as [q |]; [| reflexivity].
  exists (resetWeeklyQuest weekStart q). split; [reflexivity |].
  unfold resetWeeklyQuest.
  destruct (truthy_flag (q_resetWeekly q)); repeat split; try discriminate.
Qed.

Lemma resetWeeklyQuests_resets_on_new_week_witness :
  let s := after (resetWeeklyQuests clock_2024_01_03)
             (after (updateQuestsOnEntry clock_2024_01_03 entry_2024_01_03)
                INITIAL_STATE) in
  let s' := after (resetWeeklyQuests (clock_2024_01_03 + msPerWeek)) s in
  weeklyEntriesCount s = 1 /\ weeklyEntriesCount s' = 0.
Proof.
  cbv zeta. split; [vm_compute; reflexivity |].
  refine (proj1 (resetWeeklyQuests_resets_on_new_week
                   (clock_2024_01_03 + msPerWeek)
                   (after (resetWeeklyQuests clock_2024_01_03)
                      (after (updateQuestsOnEntry clock_2024_01_03 entry_2024_01_03)
                         INITIAL_STATE))
                   "2024-01-01T00:00:00.000Z" _ _ _)).
  - vm_compute. reflexivity.
  - exists 1704067200000. reflexivity.
  - intros (n1 & n2 & H1 & H2 & E).
    change (Some 19723 = Some n1) in H1. change (Some 19732 = Some n2) in H2.
    injection H1 as <-. injection H2 as <-. vm_compute in E. discriminate E.
Defined.

(** X17. For a clock between 1970 and the year 9999, running the weekly
    reset check again at any time of the same week changes nothing: the
    check is idempotent within a week. *)
Theorem resetWeeklyQuests_idempotent_within_week (c1 c2 : Z)
    (s : GamificationState) :
  clock_in_iso_range c1 ->
  same_iso_week (Date_now c1) (Date_now c2) ->
  after (resetWeeklyQuests c2) (after (resetWeeklyQuests c1) s)
  = after (resetWeeklyQuests c1) s.
Proof.
  intros Hc (n1 & n2 & [= <-] & [= <-] & Hweek).
  change (resetWeeklyQuests_fn c2 (resetWeeklyQuests_fn c1 s)
          = resetWeeklyQuests_fn c1 s).
  pose proof (weekStart_reads_back c1 Hc) as Hback.
  assert (Hstart : getWeekStart (Date_now c2) = getWeekStart (Date_now c1)).
  { unfold Date_now. rewrite !getWeekStart_valid, Hweek. reflexivity. }
  assert (Hsame : isSameWeek (TimeValue (MakeDate (monday_of (Day c1)) 0))
                    (Date_now c2) = true).
  { unfold Date_now. rewrite isSameWeek_valid, Z.eqb_eq.
    rewrite Day_MakeDate by (unfold msPerDay; lia).
    rewrite <- Hweek. pose proof (monday_of_range (Day c1)) as [Hr Hm].
    apply monday_of_unique; [lia | exact Hm]. }
  assert (E1 : weekStartDate (resetWeeklyQuests_fn c1 s)
               = Some (toISOString (getWeekStart (Date_now c1)))).
  { unfold resetWeeklyQuests_fn. destruct (truthy_string _ && negb _); reflexivity. }
  unfold resetWeeklyQuests_fn at 1. rewrite E1, Hstart. cbn [from_option id].
  rewrite (truthy_string_parse _ _ Hback), Hback, Hsame. cbn [andb negb].
  revert E1. generalize (toISOString (getWeekStart (Date_now c1))).
  intros ws E1. destruct (resetWeeklyQuests_fn c1 s). cbn in E1 |- *.
  rewrite E1. reflexivity.
Qed.

Lemma resetWeeklyQuests_idempotent_within_week_witness :
  let s := after (updateQuestsOnEntry clock_2024_01_03 entry_2024_01_03)
             INITIAL_STATE in
  after (resetWeeklyQuests clock_2024_01_04)
    (after (resetWeeklyQuests clock_2024_01_03) s)
  = after (resetWeeklyQuests clock_2024_01_03) s.
Proof.
  cbv zeta. apply resetWeeklyQuests_idempotent_within_week.
  - unfold clock_in_iso_range, clock_2024_01_03. lia.
  - exists 19725, 19726. repeat split.
Defined.

(** ** Quests *)

Lemma updateQuest_static (s : GamificationState) (entry : JournalEntry)
    (entryDate : Date) (isNewDay : bool) (w h : Z) (q : Quest) :
  quest_static (updateQuest s entry entryDate isNewDay w h q) = quest_static q.
Proof. unfold updateQuest. destruct (q_completed q); reflexivity. Qed.

Lemma resetWeeklyQuest_static (weekStart : string) (q : Quest) :
  quest_static (resetWeeklyQuest weekStart q) = quest_static q.
Proof. unfold resetWeeklyQuest. destruct (truthy_flag _); reflexivity. Qed.

(** X18. In every state of the engine the quests are the three the engine
    starts with, under the same ids: none is added or removed, and the id,
    title, description, target, reward, type, tag and weekly flag of each
    are the ones it starts with. *)
Theorem quests_are_the_defaults (s : GamificationState) (questId : string) :
  reachable s ->
  quest_static <$> quests s !! questId
  = quest_static <$> DEFAULT_QUESTS !! questId.
Proof.
  intros Hr. revert questId. pattern s. revert s Hr. apply reachable_keeps.
  - intros amount s H. exact H.
  - intros d s H. exact H.
  - intros s H. exact H.
  - intros clock s H questId. unfold resetWeeklyQuests_fn.
    generalize (toISOString (getWeekStart (Date_now clock))). intros weekStart.
    destruct (truthy_string _ && negb _); cbn [quests]; [| apply H].
    rewrite lookup_fmap, <- H.
    destruct (quests s !! questId) as [q |]; [| reflexivity].
    cbn. f_equal. apply resetWeeklyQuest_static.
  - intros clock entry s H questId. unfold updateQuests_fn. cbn [quests].
    rewrite lookup_fmap, <- H.
    destruct (quests s !! questId) as [q |]; [| reflexivity].
    cbn [fmap option_fmap option_map]. f_equal. apply updateQuest_static.
  - intros questId0 q0 s _ H questId. cbn [claimQuest_fn quests].
    rewrite lookup_alter, <- H.
    destruct (decide (questId0 = questId)) as [<- |]; [| reflexivity].
    destruct (quests s !! questId0) as [q |]; reflexivity.
  - intros clock entry s H. exact H.
  - reflexivity.
Qed.

Lemma quests_are_the_defaults_witness :
  let s := run [RegisterEntry clock_2024_01_03 entry_2024_01_03;
                ClaimQuest "math-tags-5"] INITIAL_STATE in
  quest_static <$> quests s !! "math-tags-5" = Some (quest_static math_tags_5)
  /\ quest_static <$> quests s !! "no-such-quest" = None.
Proof.
  cbv zeta. split.
  - apply (quests_are_the_defaults _ "math-tags-5").
    apply reachable_step, reachable_step, reachable_initial.
  - apply (quests_are_the_defaults _ "no-such-quest").
    apply reachable_step, reachable_step, reachable_initial.
Defined.

Lemma updateQuests_fn_counters (clock : Z) (entry : JournalEntry)
    (s : GamificationState) (newDay thisWeek : bool) :
  negb (truthy_string (lastEntryDate s))
  || negb (isSameDay (Date_parse (default "" (lastEntryDate s)))
             (Date_parse (date entry))) = newDay ->
  isSameWeek (Date_parse (date entry)) (Date_now clock) = thisWeek ->
  weeklyEntriesCount (updateQuests_fn clock entry s)
  = weeklyEntriesCount s + (if newDay && thisWeek then 1 else 0)
  /\ weeklyHighFocusDays (updateQuests_fn clock entry s)
     = weeklyHighFocusDays s
       + (if newDay && thisWeek && (7 <=? entryFocusLevel entry) then 1 else 0).
Proof.
  intros H1 H2. unfold updateQuests_fn.
  cbn [weeklyEntriesCount weeklyHighFocusDays]. rewrite H1, H2, Z.geb_leb.
  destruct (newDay && thisWeek); [destruct (7 <=? _) |]; cbn [andb]; lia.
Qed.

(** X19. The per-entry quest update, called on its own: when the entry falls
    in the clock's week, and either there is no last entry date (null or
    empty) or the last entry date reads as a date of another calendar day
    than the entry's, the weekly count of entries grows by 1, and the count
    of high-focus days by 1 if the entry's focus level is at least 7 and by
    0 otherwise. *)
Theorem updateQuestsOnEntry_counts_new_day_of_week (clock : Z)
    (entry : JournalEntry) (s : GamificationState) :
  (truthy_string (lastEntryDate s) = false
   \/ exists last t, lastEntryDate s = Some last
        /\ Date_parse last = TimeValue t
        /\ ~ same_calendar_day (TimeValue t) (Date_parse (date entry))) ->
  same_iso_week (Date_parse (date entry)) (Date_now clock) ->
  let s' := after (updateQuestsOnEntry clock entry) s in
  weeklyEntriesCount s' = weeklyEntriesCount s + 1
  /\ weeklyHighFocusDays s'
     = weeklyHighFocusDays s + (if 7 <=? entryFocusLevel entry then 1 else 0).
Proof.
  intros Hnew Hweek. apply isSameWeek_iff_same_iso_week in Hweek.
  apply (updateQuests_fn_counters clock entry s true true); [| exact Hweek].
  destruct Hnew as [-> | (last & t & Hl & Hp & Hnew)]; [reflexivity |].
  rewrite Hl. cbn [from_option id]. rewrite Hp.
  destruct (isSameDay _ _) eqn:E; [| apply orb_true_r].
  exfalso. apply Hnew, isSameDay_iff_same_calendar_day_aux, E.
Qed.

Lemma updateQuestsOnEntry_counts_new_day_of_week_witness :
  let s := after (updateQuestsOnEntry clock_2024_01_03 entry_2024_01_03)
             (after (updateStreakOnEntry "2024-01-03T10:00:00.000Z") INITIAL_STATE) in
  let s' := after (updateQuestsOnEntry clock_2024_01_04 entry_2024_01_04) s in
  weeklyEntriesCount s' = weeklyEntriesCount s + 1
  /\ weeklyHighFocusDays s' = weeklyHighFocusDays s + 1.
Proof.
  cbv zeta.
  refine (updateQuestsOnEntry_counts_new_day_of_week clock_2024_01_04
            entry_2024_01_04 _ _ _).
  - right. exists "2024-01-03T10:00:00.000Z", 1704276000000.
    split; [reflexivity |]. split; [reflexivity |].
    intros (n & H1 & H2).
    change (Some 19725 = Some n) in H1. change (Some 19726 = Some n) in H2.
    congruence.
  - exists 19726, 19726. repeat split.
Defined.

(** X20. The per-entry quest update does not count an entry that falls on
    the calendar day of the last entry, nor one whose date reads as a date
    outside the clock's week or is empty: both weekly counters stay as they
    are. *)
Theorem updateQuestsOnEntry_skips_same_day_or_other_week (clock : Z)
    (entry : JournalEntry) (s : GamificationState) :
  (exists last, lastEntryDate s = Some last
     /\ same_calendar_day (Date_parse last) (Date_parse (date entry)))
  \/ (date_string_read (date entry)
      /\ ~ same_iso_week (Date_parse (date entry)) (Date_now clock)) ->
  let s' := after (updateQuestsOnEntry clock entry) s in
  weeklyEntriesCount s' = weeklyEntriesCount s
  /\ weeklyHighFocusDays s' = weeklyHighFocusDays s.
Proof.
  intros H. cbv zeta.
  change (after (updateQuestsOnEntry clock entry) s)
    with (updateQuests_fn clock entry s).
  destruct H as [(last & Hl & Hsame) | [_ Hweek]].
  - destruct (updateQuests_fn_counters clock entry s false
                (isSameWeek (Date_parse (date entry)) (Date_now clock)))
      as [-> ->]; [| reflexivity | cbn [andb]; lia].
    rewrite Hl. cbn [from_option id].
    apply isSameDay_iff_same_calendar_day_aux in Hsame. rewrite Hsame.
    destruct (Date_parse last) as [| t] eqn:Hp; [discriminate Hsame |].
    rewrite (truthy_string_parse last t Hp). reflexivity.
  - destruct (updateQuests_fn_counters clock entry s
                (negb (truthy_string (lastEntryDate s))
                 || negb (isSameDay (Date_parse (default "" (lastEntryDate s)))
                            (Date_parse (date entry))))
                false) as [-> ->]; [reflexivity | | rewrite andb_false_r; cbn [andb]; lia].
    destruct (isSameWeek _ _) eqn:E; [| reflexivity].
    exfalso. apply Hweek, isSameWeek_iff_same_iso_week, E.
Qed.

Lemma updateQuestsOnEntry_skips_same_day_or_other_week_witness :
  let s := after (updateStreakOnEntry "2024-01-03T08:00:00.000Z") INITIAL_STATE in
  let s' := after (updateQuestsOnEntry clock_2024_01_03 entry_2024_01_03) s in
  weeklyEntriesCount s' = weeklyEntriesCount s
  /\ weeklyHighFocusDays s' = weeklyHighFocusDays s.
Proof.
  cbv zeta.
  refine (updateQuestsOnEntry_skips_same_day_or_other_week clock_2024_01_03
            entry_2024_01_03 _ _).
  left. exists "2024-01-03T08:00:00.000Z". split; [reflexivity |].
  exists 19725. split; reflexivity.
Defined.



Lemma exec_claimQuest (questId : string) (st : Store) :
  exec (claimQuest questId) st
  = match quests (st_state st) !! questId with
    | None => st
    | Some q =>
        if negb (q_completed q) || q_claimed q then st
        else exec (_addXP (q_rewardXP q))
               (commit (claimQuest_fn questId (st_state st)) st)
    end.
Proof.
  unfold claimQuest, _claimQuest. rewrite exec_bind. cbn [get fst exec snd].
  destruct (quests (st_state st) !! questId) as [q |]; [| reflexivity].
  destruct (negb (q_completed q) || q_claimed q); [reflexivity |].
  change (snd ((set (claimQuest_fn questId);;; _addXP (q_rewardXP q)) st))
    with (exec (set (claimQuest_fn questId);;; _addXP (q_rewardXP q)) st).
  rewrite exec_bind, exec_set. reflexivity.
Qed.

(** X22. Claiming the same quest a second time changes nothing, commit log
    included: the reward of a quest is paid at most once. *)
Theorem claimQuest_twice_is_once (questId : string) (st : Store) :
  exec (claimQuest questId) (exec (claimQuest questId) st)
  = exec (claimQuest questId) st.
Proof.
  rewrite (exec_claimQuest questId st).
  destruct (quests (st_state st) !! questId) as [q |] eqn:Hq.
  2: { rewrite exec_claimQuest, Hq. reflexivity. }
  destruct (negb (q_completed q) || q_claimed q) eqn:Hg.
  { rewrite exec_claimQuest, Hq, Hg. reflexivity. }
  set (st1 := exec (_addXP (q_rewardXP q))
                (commit (claimQuest_fn questId (st_state st)) st)).
  assert (H1 : quests (st_state st1) !! questId = Some (claim_it q)).
  { unfold st1, _addXP. destruct (q_rewardXP q <=? 0);
      cbn [exec ret set snd commit st_state addXP_fn claimQuest_fn quests];
      rewrite lookup_alter; destruct (decide (questId = questId)); try congruence;
      rewrite Hq; reflexivity. }
  rewrite exec_claimQuest, H1. cbn [claim_it q_claimed].
  rewrite orb_true_r. reflexivity.
Qed.

(** ** Registering an entry on a new day *)

Lemma calculateStreak_next_day (s : string) (currentStreak : Z) (entryDate : Date) :
  next_calendar_day (Date_parse s) entryDate ->
  calculateStreak (Some s) currentStreak entryDate
  = {| newStreak := currentStreak + 1; isNewDay := true |}.
Proof.
  intros (n & Hl & He).
  destruct (Date_parse s) as [| tl] eqn:Hp; [discriminate |].
  destruct entryDate as [| te]; [discriminate |].
  cbn in Hl, He. injection Hl as Hl. injection He as He.
  rewrite (calculateStreak_valid s tl te _ Hp).
  replace (Day tl =? Day te) with false by (symmetry; apply Z.eqb_neq; lia).
  replace (Day tl =? Day te - 1) with true by (symmetry; apply Z.eqb_eq; lia).
  reflexivity.
Qed.

Lemma isYesterday_iff_next_calendar_day_aux (date1 date2 : Date) :
  isYesterday date1 date2 = true <-> next_calendar_day date1 date2.
Proof.
  destruct date1 as [| a], date2 as [| b].
  - split; [discriminate | intros (n & H & _); discriminate H].
  - split; [discriminate | intros (n & H & _); discriminate H].
  - rewrite isYesterday_invalid_r.
    split; [discriminate | intros (n & _ & H); discriminate H].
  - rewrite isYesterday_valid, Z.eqb_eq. split.
    + intros E. exists (Day a). cbn. split; [reflexivity | f_equal; lia].
    + intros (n & Ha & Hb). cbn in Ha, Hb.
      injection Ha as Ha. injection Hb as Hb. lia.
Qed.

Lemma calculateStreak_restart (last : option string) (currentStreak : Z)
    (entryDate : Date) :
  truthy_string last = false
  \/ (~ same_calendar_day (Date_parse (default "" last)) entryDate
      /\ ~ next_calendar_day (Date_parse (default "" last)) entryDate) ->
  calculateStreak last currentStreak entryDate
  = {| newStreak := 1; isNewDay := true |}.
Proof.
  intros H. unfold calculateStreak.
  destruct (truthy_string last); [| reflexivity]. cbn [negb].
  destruct H as [H | [Hs Hn]]; [discriminate H |].
  destruct (isSameDay _ _) eqn:E1.
  { exfalso. apply Hs, isSameDay_iff_same_calendar_day_aux, E1. }
  destruct (isYesterday _ _) eqn:E2; [| reflexivity].
  exfalso. apply Hn, isYesterday_iff_next_calendar_day_aux, E2.
Qed.

(** What [registerEntry] makes of the counters, given the answer of the
    streak calculator. *)
Lemma registerEntry_fields (clock : Z) (entry : JournalEntry)
    (s : GamificationState) (r : StreakResult) :
  calculateStreak (lastEntryDate s) (streak s) (Date_parse (date entry)) = r ->
  let s' := after (registerEntry clock entry) s in
  streak s' = newStreak r
  /\ longestStreak s' = Z.max (longestStreak s) (newStreak r)
  /\ totalEntries s' = totalEntries s + (if isNewDay r then 1 else 0)
  /\ mathTaggedEntries s'
     = mathTaggedEntries s + (if hasTag entry "math" && isNewDay r then 1 else 0)
  /\ totalFocusMinutes s' = totalFocusMinutes s + default 0 (focusMinutes entry)
  /\ xp s'
     = xp s
       + (if isNewDay r
          then 10 + (if streak s <? newStreak r then newStreak r * 2 else 0)
          else 0)
       + default 0 (focusMinutes entry) / 5
  /\ lastEntryDate s' = Some (date entry).
Proof.
  intros Hr. cbv zeta. rewrite after_registerEntry.
  unfold updateQuests_fn. cbn [streak longestStreak totalEntries
    mathTaggedEntries totalFocusMinutes xp lastEntryDate].
  pose proof (resetWeeklyQuests_fn_frame clock s) as F. cbv zeta in F.
  destruct F as (F1 & F2 & F3 & F4 & F5 & F6 & F7 & _ & _).
  set (s1 := resetWeeklyQuests_fn clock s) in *.
  unfold registerEntry_fn. cbn [streak longestStreak totalEntries
    mathTaggedEntries totalFocusMinutes xp lastEntryDate].
  rewrite F1, F2, F3, F4, F5, F6, F7, Hr. clearbody s1.
  rewrite Z.gtb_ltb.
  repeat split.
  - destruct (isNewDay r); lia.
  - destruct (hasTag entry "math" && isNewDay r); lia.
  - destruct (focusMinutes entry) as [m |]; cbn [from_option id].
    + destruct (Z.eqb_spec m 0) as [-> | _];
        destruct (isNewDay r); try destruct (streak s <? newStreak r);
        Z.div_mod_to_equations; lia.
    + destruct (isNewDay r); try destruct (streak s <? newStreak r);
        Z.div_mod_to_equations; lia.
Qed.

(** X23. An entry on the calendar day after the last entry: the streak grows
    by 1 and the longest streak follows it, the entries by 1, the
    math-tagged entries by 1 if one of the entry's tags is "math" in any
    letter case, the focus minutes by the entry's, and the xp by 10 plus
    twice the new streak plus floor(focusMinutes / 5). *)
Theorem registerEntry_next_day (clock : Z) (entry : JournalEntry)
    (s : GamificationState) (last : string) :
  lastEntryDate s = Some last ->
  next_calendar_day (Date_parse last) (Date_parse (date entry)) ->
  let s' := after (registerEntry clock entry) s in
  streak s' = streak s + 1
  /\ longestStreak s' = Z.max (longestStreak s) (streak s + 1)
  /\ totalEntries s' = totalEntries s + 1
  /\ mathTaggedEntries s'
     = mathTaggedEntries s + (if hasTag entry "math" then 1 else 0)
  /\ totalFocusMinutes s' = totalFocusMinutes s + default 0 (focusMinutes entry)
  /\ xp s' = xp s + 10 + 2 * (streak s + 1) + default 0 (focusMinutes entry) / 5
  /\ lastEntryDate s' = Some (date entry).
Proof.
  intros Hl Hn.
  pose proof (registerEntry_fields clock entry s
                {| newStreak := streak s + 1; isNewDay := true |}) as H.
  cbv zeta in *. cbn [newStreak isNewDay] in H.
  rewrite andb_true_r in H.
  replace (streak s <? streak s + 1) with true in H
    by (symmetry; apply Z.ltb_lt; lia).
  destruct H as (H1 & H2 & H3 & H4 & H5 & H6 & H7).
  { rewrite Hl. apply calculateStreak_next_day, Hn. }
  repeat split; try assumption. lia.
Qed.

Lemma registerEntry_next_day_witness :
  let s := after (registerEntry clock_2024_01_03 entry_2024_01_03) INITIAL_STATE in
  let s' := after (registerEntry clock_2024_01_04 entry_2024_01_04) s in
  streak s' = streak s + 1
  /\ longestStreak s' = Z.max (longestStreak s) (streak s + 1)
  /\ totalEntries s' = totalEntries s + 1
  /\ mathTaggedEntries s' = mathTaggedEntries s + 1
  /\ totalFocusMinutes s' = totalFocusMinutes s + 240
  /\ xp s' = xp s + 10 + 2 * (streak s + 1) + 48
  /\ lastEntryDate s' = Some "2024-01-04T09:00:00.000Z".
Proof.
  cbv zeta.
  refine (registerEntry_next_day clock_2024_01_04 entry_2024_01_04 _
            "2024-01-03T10:00:00.000Z" _ _).
  - reflexivity.
  - exists 19725. split; reflexivity.
Defined.

(** X24. An entry that starts the streak anew: the first entry ever (the
    last entry date null or empty), or, the last entry date reading as a
    date, an entry after a gap, an entry dated before the last one, or an
    entry whose date is empty.  The streak becomes 1, the entries grow by 1,
    and the xp by 10 plus floor(focusMinutes / 5), plus 2 only if the streak
    was below 1 before. *)
Theorem registerEntry_restart (clock : Z) (entry : JournalEntry)
    (s : GamificationState) :
  streak_restarts s entry ->
  let s' := after (registerEntry clock entry) s in
  streak s' = 1
  /\ longestStreak s' = Z.max (longestStreak s) 1
  /\ totalEntries s' = totalEntries s + 1
  /\ mathTaggedEntries s'
     = mathTaggedEntries s + (if hasTag entry "math" then 1 else 0)
  /\ totalFocusMinutes s' = totalFocusMinutes s + default 0 (focusMinutes entry)
  /\ xp s' = xp s + 10 + (if streak s <? 1 then 2 else 0)
             + default 0 (focusMinutes entry) / 5.
Proof.
  intros Hn.
  pose proof (registerEntry_fields clock entry s
                {| newStreak := 1; isNewDay := true |}) as H.
  cbv zeta in *. cbn [newStreak isNewDay] in H.
  rewrite andb_true_r in H.
  destruct H as (H1 & H2 & H3 & H4 & H5 & H6 & H7).
  { apply calculateStreak_restart.
    destruct Hn as [Hn | (last & t & Hl & Hp & _ & Hs & Hnx)]; [left; exact Hn |].
    right. rewrite Hl. cbn [from_option id]. rewrite Hp. split; assumption. }
  repeat split; try assumption. rewrite H6.
  destruct (streak s <? 1); lia.
Qed.

Lemma registerEntry_restart_witness :
  let entry := {| entry_id := "e"; date := "2024-01-10T09:00:00.000Z";
                  tags := Some ["Math"];
                  focusMinutes := None; focusLevel := None |} in
  let s := after (registerEntry clock_2024_01_03 entry_2024_01_03) INITIAL_STATE in
  let s' := after (registerEntry clock_2024_01_04 entry) s in
  streak s' = 1
  /\ longestStreak s' = Z.max (longestStreak s) 1
  /\ totalEntries s' = totalEntries s + 1
  /\ mathTaggedEntries s' = mathTaggedEntries s + 1
  /\ totalFocusMinutes s' = totalFocusMinutes s + 0
  /\ xp s' = xp s + 10 + 0 + 0.
Proof.
  cbv zeta.
  refine (registerEntry_restart clock_2024_01_04
            {| entry_id := "e"; date := "2024-01-10T09:00:00.000Z";
               tags := Some ["Math"];
               focusMinutes := None; focusLevel := None |} _ _).
  right. exists "2024-01-03T10:00:00.000Z", 1704276000000.
  split; [reflexivity |]. split; [reflexivity |].
  split; [right; exists 1704877200000; reflexivity |].
  split.
  - intros (n & Hl & He).
    change (Some 19725 = Some n) in Hl. change (Some 19732 = Some n) in He.
    congruence.
  - intros (n & Hl & He).
    change (Some 19725 = Some n) in Hl. change (Some 19732 = Some (n + 1)) in He.
    injection Hl as <-. discriminate He.
Defined.

(** X25. In every state of the engine, registering an entry whose focus
    minutes are absent or not negative never lowers the xp nor the level. *)
Theorem registerEntry_never_lowers_xp (clock : Z) (entry : JournalEntry)
    (s : GamificationState) :
  reachable s ->
  0 <= default 0 (focusMinutes entry) ->
  let s' := after (registerEntry clock entry) s in
  xp s <= xp s' /\ calculateLevel (xp s) <= calculateLevel (xp s').
Proof.
  intros Hr Hf. cbv zeta.
  enough (xp s <= xp (after (registerEntry clock entry) s)) as H
    by (split; [exact H | apply calculateLevel_monotone, H]).
  apply streak_inv_reachable in Hr. unfold streak_inv in Hr.
  pose proof (registerEntry_fields clock entry s _ eq_refl) as H.
  cbv zeta in H. destruct H as (_ & _ & _ & _ & _ & -> & _).
  pose proof (calculateStreak_range (lastEntryDate s) (streak s)
                (Date_parse (date entry))) as Hrange. cbv zeta in Hrange.
  assert (0 <= default 0 (focusMinutes entry) / 5)
    by (apply Z.div_pos; lia).
  destruct (isNewDay _); [destruct (_ <? _) |]; lia.
Qed.

Lemma registerEntry_never_lowers_xp_witness :
  let s := after (registerEntry clock_2024_01_03 entry_2024_01_03) INITIAL_STATE in
  let s' := after (registerEntry clock_2024_01_04 entry_2024_01_04) s in
  xp s <= xp s' /\ calculateLevel (xp s) <= calculateLevel (xp s').
Proof.
  cbv zeta.
  refine (registerEntry_never_lowers_xp clock_2024_01_04 entry_2024_01_04 _ _ _).
  - apply (reachable_step INITIAL_STATE
             (RegisterEntry clock_2024_01_03 entry_2024_01_03)),
      reachable_initial.
  - change (0 <= 240). lia.
Defined.

(** ** The streak outside [registerEntry] *)

(** X26. The check the hook runs on mount: when the streak has lapsed (a
    positive streak whose last entry date reads as a date that falls neither
    on the clock's calendar day nor on the day before) it commits the state
    with the streak at 0 and all else, the longest streak included, as it
    was; when there is no last entry date (null or empty), no positive
    streak, or a last entry on the clock's calendar day or on the day
    before, it leaves the store as it is, without a commit. *)
Theorem mountStreakCheck_resets_lapsed_streak (clock : Z) (st : Store) :
  (streak_lapsed clock (st_state st) ->
   exec (mountStreakCheck clock) st = commit (resetStreak_fn (st_state st)) st
   /\ streak (st_state (exec (mountStreakCheck clock) st)) = 0
   /\ longestStreak (st_state (exec (mountStreakCheck clock) st))
      = longestStreak (st_state st))
  /\ (streak_alive clock (st_state st) ->
      exec (mountStreakCheck clock) st = st).
Proof.
  assert (E : exec (mountStreakCheck clock) st
              = if truthy_string (lastEntryDate (st_state st))
                   && (streak (st_state st) >? 0)
                   && negb (isSameDay
                              (Date_parse (default "" (lastEntryDate (st_state st))))
                              (Date_now clock))
                   && negb (isYesterday
                              (Date_parse (default "" (lastEntryDate (st_state st))))
                              (Date_now clock))
                then commit (resetStreak_fn (st_state st)) st else st).
  { unfold mountStreakCheck. rewrite exec_bind. cbn [get fst exec snd].
    destruct (truthy_string _ && (_ >? _)); [| reflexivity]. cbn [andb].
    unfold isYesterday.
    destruct (negb (isSameDay _ (Date_now clock)) && negb (isSameDay _ _));
      reflexivity. }
  rewrite E. clear E. set (s := st_state st). split.
  - intros (last & t & Hl & Hp & Hpos & Hs & Hn). rewrite Hl.
    cbn [from_option id].
    rewrite (truthy_string_parse last t Hp), Hp.
    replace (streak s >? 0) with true
      by (symmetry; rewrite Z.gtb_ltb; apply Z.ltb_lt; exact Hpos).
    destruct (isSameDay _ _) eqn:E1.
    { exfalso. apply Hs, isSameDay_iff_same_calendar_day_aux, E1. }
    destruct (isYesterday _ _) eqn:E2.
    { exfalso. apply Hn, isYesterday_iff_next_calendar_day_aux, E2. }
    repeat split.
  - intros [-> | [Hle | [Hsame | Hnext]]].
    + reflexivity.
    + replace (streak s >? 0) with false
        by (symmetry; rewrite Z.gtb_ltb; apply Z.ltb_ge; exact Hle).
      rewrite andb_false_r. reflexivity.
    + apply isSameDay_iff_same_calendar_day_aux in Hsame. rewrite Hsame.
      cbn [negb]. rewrite andb_false_r. reflexivity.
    + apply isYesterday_iff_next_calendar_day_aux in Hnext. rewrite Hnext.
      cbn [negb]. rewrite andb_false_r. reflexivity.
Qed.

Lemma mountStreakCheck_resets_lapsed_streak_witness :
  let s := after (registerEntry clock_2024_01_03 entry_2024_01_03) INITIAL_STATE in
  streak s = 1
  /\ streak (st_state (exec (mountStreakCheck (clock_2024_01_03 + msPerWeek))
                         (store_of s))) = 0
  /\ exec (mountStreakCheck clock_2024_01_04) (store_of s) = store_of s.
Proof.
  cbv zeta. split; [vm_compute; reflexivity |]. split.
  - refine (proj1 (proj2 (proj1 (mountStreakCheck_resets_lapsed_streak
              (clock_2024_01_03 + msPerWeek)
              (store_of (after (registerEntry clock_2024_01_03 entry_2024_01_03)
                           INITIAL_STATE))) _))).
    exists "2024-01-03T10:00:00.000Z", 1704276000000.
    split; [vm_compute; reflexivity |].
    split; [reflexivity |]. split; [vm_compute; reflexivity |].
    split; intros (n & H1 & H2);
      change (Some 19725 = Some n) in H1; injection H1 as <-;
      vm_compute in H2; discriminate H2.
  - refine (proj2 (mountStreakCheck_resets_lapsed_streak clock_2024_01_04
              (store_of (after (registerEntry clock_2024_01_03 entry_2024_01_03)
                           INITIAL_STATE))) _).
    right. right. right. exists 19725. split; reflexivity.
Defined.

(** X27. [updateStreakOnEntry] changes the streak, the last entry date and
    the longest streak only, and a second call with the same date changes
    nothing more. *)
Theorem updateStreakOnEntry_frame_and_idempotent (d : string)
    (s : GamificationState) :
  let s' := after (updateStreakOnEntry d) s in
  lastEntryDate s' = Some d
  /\ xp s' = xp s /\ totalEntries s' = totalEntries s
  /\ totalFocusMinutes s' = totalFocusMinutes s
  /\ mathTaggedEntries s' = mathTaggedEntries s
  /\ achievements s' = achievements s /\ unlocks s' = unlocks s
  /\ quests s' = quests s
  /\ weeklyEntriesCount s' = weeklyEntriesCount s
  /\ weeklyHighFocusDays s' = weeklyHighFocusDays s
  /\ weekStartDate s' = weekStartDate s
  /\ after (updateStreakOnEntry d) s' = s'.
Proof.
  cbv zeta. repeat (split; [reflexivity |]).
  change (updateStreak_fn d (updateStreak_fn d s) = updateStreak_fn d s).
  unfold updateStreak_fn at 1.
  cbn [lastEntryDate streak longestStreak xp totalEntries totalFocusMinutes
       mathTaggedEntries achievements unlocks quests weeklyEntriesCount
       weeklyHighFocusDays weekStartDate updateStreak_fn].
  set (n1 := newStreak (calculateStreak (lastEntryDate s) (streak s) (Date_parse d))).
  assert (E : newStreak (calculateStreak (Some d) n1 (Date_parse d)) = n1).
  { destruct (Date_parse d) as [| t] eqn:Hp.
    - assert (H1 : n1 = 1).
      { unfold n1, calculateStreak. destruct (negb _); [reflexivity |].
        rewrite isSameDay_invalid_r, isYesterday_invalid_r. reflexivity. }
      rewrite H1. unfold calculateStreak. destruct (negb _); [reflexivity |].
      rewrite isSameDay_invalid_r, isYesterday_invalid_r. reflexivity.
    - rewrite (calculateStreak_valid d t t n1 Hp), Z.eqb_refl. reflexivity. }
  rewrite E. unfold updateStreak_fn. fold n1. f_equal. lia.
Qed.

(** ** The journal's helpers *)

(** X28. The focus level the journal derives from the focus minutes is
    always between 1 and 10, never decreases when the minutes grow, and is at
    least 7 exactly from 39 minutes on; on whether an entry without a focus
    level of its own is a high-focus one, it agrees with the level the
    engine derives from the minutes. *)
Theorem focusMinutesToLevel_range_and_agreement :
  (forall m, 1 <= focusMinutesToLevel m <= 10)
  /\ (forall m1 m2, m1 <= m2 -> focusMinutesToLevel m1 <= focusMinutesToLevel m2)
  /\ (forall m, 7 <= focusMinutesToLevel m <-> 39 <= m)
  /\ (forall entry m, focusLevel entry = None -> focusMinutes entry = Some m ->
        (7 <= entryFocusLevel entry <-> 7 <= focusMinutesToLevel m)).
Proof.
  unfold focusMinutesToLevel, entryFocusLevel, Math_round_quot.
  split; [| split; [| split]].
  - intros m. lia.
  - intros m1 m2 H.
    assert ((2 * m1 + 6) / (2 * 6) <= (2 * m2 + 6) / (2 * 6))
      by (apply Z.div_le_mono; lia).
    lia.
  - intros m. split; intros H.
    + assert (7 <= (2 * m + 6) / (2 * 6)) by lia.
      Z.div_mod_to_equations. lia.
    + assert (7 <= (2 * m + 6) / (2 * 6)) by (Z.div_mod_to_equations; lia).
      lia.
  - intros entry m -> ->. destruct (Z.eqb_spec m 0) as [-> | _].
    + split; intros H; Z.div_mod_to_equations; lia.
    + split; intros H; lia.
Qed.

Lemma focusMinutesToLevel_range_and_agreement_witness :
  focusMinutesToLevel 30 <= focusMinutesToLevel 45
  /\ (7 <= entryFocusLevel {| entry_id := "e"; date := "2024-01-03";
                              tags := None; focusMinutes := Some 45;
                              focusLevel := None |}
      <-> 7 <= focusMinutesToLevel 45).
Proof.
  split.
  - apply (proj1 (proj2 focusMinutesToLevel_range_and_agreement) 30 45). lia.
  - apply (proj2 (proj2 (proj2 focusMinutesToLevel_range_and_agreement)));
      reflexivity.
Defined.

(** X29. The xp the journal shows for an entry is never below 5; with focus
    minutes and a template bonus that are not negative it is at least the
    base of 10 plus the bonus; no tags count like an empty list of tags; and
    tags beyond the fifth add nothing. *)
Theorem calculateXPEarned_bounds (focusMinutes focusLevel templateBonus : Z) :
  (forall tags, 5 <= calculateXPEarned focusMinutes focusLevel tags templateBonus)
  /\ (forall tags, 0 <= focusMinutes -> 0 <= templateBonus ->
        BASE_XP + templateBonus
        <= calculateXPEarned focusMinutes focusLevel tags templateBonus)
  /\ calculateXPEarned focusMinutes focusLevel None templateBonus
     = calculateXPEarned focusMinutes focusLevel (Some []) templateBonus
  /\ (forall l extra : list string, (5 <= length l)%nat ->
        calculateXPEarned focusMinutes focusLevel (Some (l ++ extra)%list)
          templateBonus
        = calculateXPEarned focusMinutes focusLevel (Some l) templateBonus).
Proof.
  unfold calculateXPEarned, BASE_XP, Math_round_quot.
  split; [| split; [| split]].
  - intros tags. lia.
  - intros tags Hf Hb.
    assert (0 <= (2 * focusMinutes + 6) / (2 * 6)) by (apply Z.div_pos; lia).
    destruct (focusLevel >=? 8); [| destruct (focusLevel >=? 6)];
      (destruct tags as [l |]; [destruct (Z.of_nat (length l) >? 0) |]); lia.
  - reflexivity.
  - intros l extra Hl. rewrite length_app.
    replace (Z.of_nat (length l + length extra) >? 0) with true
      by (symmetry; rewrite Z.gtb_ltb; apply Z.ltb_lt; lia).
    replace (Z.of_nat (length l) >? 0) with true
      by (symmetry; rewrite Z.gtb_ltb; apply Z.ltb_lt; lia).
    rewrite !Z.min_r by lia. reflexivity.
Qed.

Lemma calculateXPEarned_bounds_witness :
  BASE_XP + 5 <= calculateXPEarned 30 7 (Some ["math"]) 5
  /\ calculateXPEarned 30 7 (Some (["a"; "b"; "c"; "d"; "e"] ++ ["f"])%list) 5
     = calculateXPEarned 30 7 (Some ["a"; "b"; "c"; "d"; "e"]) 5.
Proof.
  split.
  - apply (proj1 (proj2 (calculateXPEarned_bounds 30 7 5))); lia.
  - apply (proj2 (proj2 (proj2 (calculateXPEarned_bounds 30 7 5)))).
    cbn. lia.
Defined.
